(** * Offline-RAG front end: session and request orchestration

    A shallow embedding of the TypeScript sources

    - [services/api.ts]: the HTTP client facade [ApiService];
    - [components/AdminSidebar.tsx]: the component [AdminSidebar] with its
      upload, inspect and clear handlers, and the component [ChatInterface]
      with the query handler and the session, which follows it in the file;

    followed by the properties of the session and of the admin operations.

    Conventions of the embedding.

    - A JavaScript string is its sequence of UTF-16 code units ([jsstring]).
    - A value decoded from a response body is a [JsValue]; [undefined] (an
      absent property) is [None] of an [option JsValue].
    - An [async] function is cut at its [await]: the part that runs up to the
      request, and the part that runs when the request settles, which
      receives the outcome of [fetch].
    - [formatTimestamp()] reads the clock; the text it returns is an argument
      ([now]) of the part that calls it.
    - React state is a record; a handler runs on the state of the latest
      render. [toast] calls and [fetch] calls are appended to two traces kept
      in the same record. *)

From Stdlib Require Import List NArith PeanoNat Bool Lia String Ascii DecimalString.
Import ListNotations.

Set Implicit Arguments.
Set Warnings "-register-all".

(* ================================================================== *)
(** * The JavaScript values and built-ins the sources use *)
(* ================================================================== *)

Module JS.

Local Open Scope N_scope.

(** A string: its UTF-16 code units. *)
Definition jsstring := list N.

(** An ASCII literal as a [jsstring]. *)
Definition lit (s : string) : jsstring :=
  map N_of_ascii (list_ascii_of_string s).

Fixpoint jsstring_eqb (a b : jsstring) : bool :=
  match a, b with
  | [], [] => true
  | x :: a', y :: b' => N.eqb x y && jsstring_eqb a' b'
  | _, _ => false
  end.

(** A number is an IEEE double. The sources observe two things of a number
    and nothing else, and a [JsNumber] records exactly those:
    [num_falsy], whether [ToBoolean] is false (+0, -0 and NaN), and
    [num_json], the text [JSON.stringify] prints for it (the shortest
    decimal of [Number::toString], or [null] for an infinity). *)
Record JsNumber := { num_falsy : bool; num_json : jsstring }.

(** A decoded JSON value. The properties of a [JObject] are in the order
    in which the object enumerates them, each name once. *)
Inductive JsValue :=
| JNull
| JBool (b : bool)
| JNumber (x : JsNumber)
| JString (s : jsstring)
| JArray (elems : list JsValue)
| JObject (props : list (jsstring * JsValue)).

(** [typeof v === "string"], with [undefined] as [None]. *)
Definition is_string (v : option JsValue) : bool :=
  match v with Some (JString _) => true | _ => false end.

(** [ToBoolean]: what [!v], [v ? a : b], [v || w] and [v && w] test. *)
Definition ToBoolean (v : option JsValue) : bool :=
  match v with
  | None => false
  | Some JNull => false
  | Some (JBool b) => b
  | Some (JNumber x) => negb (num_falsy x)
  | Some (JString s) => match s with [] => false | _ => true end
  | Some (JArray _) => true
  | Some (JObject _) => true
  end.

(** ** [String.prototype.trim] *)

(** WhiteSpace of ECMAScript: TAB, VT, FF, ZWNBSP and the category Zs. *)
Definition isWhiteSpace (c : N) : bool :=
  (N.eqb c 9 || N.eqb c 11 || N.eqb c 12 || N.eqb c 32 || N.eqb c 160
   || N.eqb c 5760 || (N.leb 8192 c && N.leb c 8202)
   || N.eqb c 8239 || N.eqb c 8287 || N.eqb c 12288 || N.eqb c 65279)%bool.

(** LineTerminator: LF, CR, LS, PS. *)
Definition isLineTerminator (c : N) : bool :=
  (N.eqb c 10 || N.eqb c 13 || N.eqb c 8232 || N.eqb c 8233)%bool.

Definition isTrimmed (c : N) : bool := isWhiteSpace c || isLineTerminator c.

Fixpoint trimStart (s : jsstring) : jsstring :=
  match s with
  | [] => []
  | c :: r => if isTrimmed c then trimStart r else s
  end.

Definition trimEnd (s : jsstring) : jsstring := rev (trimStart (rev s)).

Definition trim (s : jsstring) : jsstring := trimEnd (trimStart s).

(** ** [String.prototype.split] with a separator of one code unit *)

Fixpoint split (sep : N) (s : jsstring) : list jsstring :=
  match s with
  | [] => [[]]
  | c :: r =>
      if N.eqb c sep then [] :: split sep r
      else match split sep r with
           | [] => [[c]]
           | h :: t => (c :: h) :: t
           end
  end.

(** [Array.prototype.join] on strings. *)
Fixpoint join (sep : jsstring) (parts : list jsstring) : jsstring :=
  match parts with
  | [] => []
  | [p] => p
  | p :: rest => p ++ sep ++ join sep rest
  end.

(** ** [JSON.stringify] *)

Definition hexDigit (d : N) : N :=
  if N.ltb d 10 then 48 + d else 87 + d.

(** [UnicodeEscape]: backslash, [u], four lower-case hexadecimal digits. *)
Definition UnicodeEscape (c : N) : jsstring :=
  [92; 117; hexDigit (N.modulo (N.div c 4096) 16);
   hexDigit (N.modulo (N.div c 256) 16);
   hexDigit (N.modulo (N.div c 16) 16); hexDigit (N.modulo c 16)]%N.

Definition isLeadingSurrogate (c : N) : bool := N.leb 55296 c && N.leb c 56319.
Definition isTrailingSurrogate (c : N) : bool := N.leb 56320 c && N.leb c 57343.

(** One code unit that is not a surrogate, as [QuoteJSONString] writes it. *)
Definition quoteUnit (c : N) : jsstring :=
  if N.eqb c 8 then [92; 98]
  else if N.eqb c 9 then [92; 116]
  else if N.eqb c 10 then [92; 110]
  else if N.eqb c 12 then [92; 102]
  else if N.eqb c 13 then [92; 114]
  else if N.eqb c 34 then [92; 34]
  else if N.eqb c 92 then [92; 92]
  else if N.ltb c 32 then UnicodeEscape c
  else [c].

(** The characters between the quotes: a surrogate pair is copied, a lone
    surrogate is escaped. *)
Fixpoint quoteUnits (s : jsstring) : jsstring :=
  match s with
  | [] => []
  | c :: r =>
      if isLeadingSurrogate c then
        match r with
        | d :: r' =>
            if isTrailingSurrogate d then c :: d :: quoteUnits r'
            else UnicodeEscape c ++ quoteUnits r
        | [] => UnicodeEscape c
        end
      else if isTrailingSurrogate c then UnicodeEscape c ++ quoteUnits r
      else quoteUnit c ++ quoteUnits r
  end.

Definition QuoteJSONString (s : jsstring) : jsstring :=
  [34] ++ quoteUnits s ++ [34].

(** [SerializeJSONProperty] with its [SerializeJSONObject] and
    [SerializeJSONArray], for the indentation unit [gap] and the current
    indentation [indent]. *)
Fixpoint SerializeJSONProperty (gap indent : jsstring) (v : JsValue)
  : jsstring :=
  match v with
  | JNull => lit "null"
  | JBool true => lit "true"
  | JBool false => lit "false"
  | JNumber x => num_json x
  | JString s => QuoteJSONString s
  | JArray elems =>
      let stepback := indent in
      let indent := indent ++ gap in
      let partial := map (SerializeJSONProperty gap indent) elems in
      match partial with
      | [] => lit "[]"
      | _ =>
          match gap with
          | [] => lit "[" ++ join (lit ",") partial ++ lit "]"
          | _ =>
              let separator := lit "," ++ [10] ++ indent in
              lit "[" ++ [10] ++ indent ++ join separator partial
                ++ [10] ++ stepback ++ lit "]"
          end
      end
  | JObject props =>
      let stepback := indent in
      let indent := indent ++ gap in
      let partial :=
        map (fun p =>
               QuoteJSONString (fst p) ++ lit ":"
                 ++ match gap with [] => [] | _ => lit " " end
                 ++ SerializeJSONProperty gap indent (snd p)) props in
      match partial with
      | [] => lit "{}"
      | _ =>
          match gap with
          | [] => lit "{" ++ join (lit ",") partial ++ lit "}"
          | _ =>
              let separator := lit "," ++ [10] ++ indent in
              lit "{" ++ [10] ++ indent ++ join separator partial
                ++ [10] ++ stepback ++ lit "}"
          end
      end
  end.

(** [JSON.stringify(v)]. *)
Definition JSON_stringify (v : JsValue) : jsstring :=
  SerializeJSONProperty [] [] v.

(** [JSON.stringify(v, null, n)] for [0 <= n <= 10]: the unit of
    indentation is [n] spaces. *)
Definition JSON_stringify_indent (v : JsValue) (n : nat) : jsstring :=
  SerializeJSONProperty (repeat 32 n) [] v.

(** ** Errors and completions *)

Inductive ErrorClass := Error | TypeError | SyntaxError.

(** An instance of [Error] or of one of its subclasses. *)
Record JsError := { err_class : ErrorClass; message : jsstring }.

(** What a [throw] or a rejected promise carries: an instance of [Error],
    or any other value. *)
Inductive Thrown :=
| ThrownError (e : JsError)
| ThrownValue (v : option JsValue).

Inductive Completion (A : Type) :=
| Normal (a : A)
| Throw (e : Thrown).
Arguments Normal {A} a.
Arguments Throw {A} e.

(** Sequencing of completions: a [Throw] ends the computation. *)
Definition andThen {A B : Type} (c : Completion A) (k : A -> Completion B)
  : Completion B :=
  match c with
  | Normal a => k a
  | Throw e => Throw e
  end.

(** [o.key] for a decoded value [o] and a property name that no built-in
    prototype defines (the sources read [answer], [sources],
    [metadata_used] and [logs]): a property of [null] cannot be read, an
    object gives its own property, every other value gives [undefined].
    The text of the [TypeError] is the engine's (here V8's). *)
Fixpoint ownProperty (key : jsstring) (props : list (jsstring * JsValue))
  : option JsValue :=
  match props with
  | [] => None
  | (k, v) :: rest => if jsstring_eqb k key then Some v else ownProperty key rest
  end.

Definition Get (o : JsValue) (key : jsstring) : Completion (option JsValue) :=
  match o with
  | JNull =>
      Throw (ThrownError
               {| err_class := TypeError;
                  message := lit "Cannot read properties of null (reading '"
                               ++ key ++ lit "')" |})
  | JObject props => Normal (ownProperty key props)
  | _ => Normal None
  end.

End JS.

(* ================================================================== *)
(** * services/api.ts *)
(* ================================================================== *)

Module Api.
Import JS.
Local Open Scope N_scope.

Notation "x <- c ;; k" := (andThen c (fun x => k))
  (at level 61, c at next level, right associativity).

Definition API_BASE : jsstring := lit "http://127.0.0.1:8002".

Inductive Role := user | assistant.

Record ChatMessage := {
  role : Role;
  content : jsstring;
  sources : option (list JsValue);
  metadata : option jsstring;
  timestamp : jsstring
}.

(** ** [fetch] *)

(** A [File] handle of the browser. *)
Record File := { file_name : jsstring }.

Inductive Body :=
| TextBody (text : jsstring)
| FormData (entries : list (jsstring * File)).

Record Request := {
  url : jsstring;
  method : jsstring;
  headers : list (jsstring * jsstring);
  body : option Body
}.

(** What [response.json()] settles to. *)
Inductive JsonOutcome :=
| Parsed (v : JsValue)
| JsonRejected (e : JsError).

Record Response := {
  ok : bool;
  statusText : jsstring;
  json : JsonOutcome
}.

(** What the promise of [fetch] settles to: it rejects with a [TypeError]
    when no response is received (Fetch standard), and resolves to the
    response otherwise, whatever its status. *)
Inductive FetchOutcome :=
| NetworkError (msg : jsstring)
| Resolved (response : Response).

Definition await_fetch (o : FetchOutcome) : Completion Response :=
  match o with
  | NetworkError msg =>
      Throw (ThrownError {| err_class := TypeError; message := msg |})
  | Resolved response => Normal response
  end.

Definition await_json (response : Response) : Completion JsValue :=
  match json response with
  | Parsed v => Normal v
  | JsonRejected e => Throw (ThrownError e)
  end.

Definition throw_Error {A : Type} (msg : jsstring) : Completion A :=
  Throw (ThrownError {| err_class := Error; message := msg |}).

(** ** class ApiService

    Each method is its call of [fetch] (the request) and what it does with
    the outcome of that call. *)

Definition query_request (question : jsstring) : Request :=
  {| url := API_BASE ++ lit "/query";
     method := lit "POST";
     headers := [(lit "Content-Type", lit "application/json")];
     body := Some (TextBody
                     (JSON_stringify (JObject [(lit "query", JString question)]))) |}.

Definition query (o : FetchOutcome) : Completion JsValue :=
  response <- await_fetch o ;;
  if negb (ok response)
  then throw_Error (lit "Query failed: " ++ statusText response)
  else await_json response.

Definition uploadDocuments_request (files : list File) : Request :=
  let formData := map (fun file => (lit "files", file)) files in
  {| url := API_BASE ++ lit "/ingest";
     method := lit "POST";
     headers := [];
     body := Some (FormData formData) |}.

Definition uploadDocuments (o : FetchOutcome) : Completion JsValue :=
  response <- await_fetch o ;;
  if negb (ok response)
  then throw_Error (lit "Upload failed: " ++ statusText response)
  else await_json response.

Definition inspectStructure_request : Request :=
  {| url := API_BASE ++ lit "/inspect";
     method := lit "GET";
     headers := [];
     body := None |}.

Definition inspectStructure (o : FetchOutcome) : Completion JsValue :=
  response <- await_fetch o ;;
  if negb (ok response)
  then throw_Error (lit "Inspect failed: " ++ statusText response)
  else await_json response.

(** [indexName || null], for the optional parameter [indexName]. *)
Definition indexName_or_null (indexName : option jsstring) : JsValue :=
  match indexName with
  | Some s => if ToBoolean (Some (JString s)) then JString s else JNull
  | None => JNull
  end.

Definition clearIndex_request (indexName : option jsstring) : Request :=
  {| url := API_BASE ++ lit "/clear";
     method := lit "DELETE";
     headers := [(lit "Content-Type", lit "application/json")];
     body := Some (TextBody
                     (JSON_stringify
                        (JObject [(lit "index_name",
                                   indexName_or_null indexName)]))) |}.

Definition clearIndex (o : FetchOutcome) : Completion JsValue :=
  response <- await_fetch o ;;
  if negb (ok response)
  then throw_Error (lit "Clear failed: " ++ statusText response)
  else await_json response.

End Api.

(** A [toast] of hooks/use-toast. *)
Record Toast := {
  title : JS.jsstring;
  description : JS.jsstring;
  variant : option JS.jsstring
}.

(* ================================================================== *)
(** * components/AdminSidebar.tsx *)
(* ================================================================== *)

Module AdminSidebar.
Import JS.
Local Open Scope N_scope.

(** The state of the component, the toasts it has raised and the requests
    it has issued. *)
Record State := {
  uploading : bool;
  inspecting : bool;
  clearing : bool;
  clearIndexName : jsstring;
  inspectData : option JsValue;
  toasts : list Toast;
  requests : list Api.Request
}.

Definition setUploading (b : bool) (st : State) : State :=
  {| uploading := b; inspecting := inspecting st; clearing := clearing st;
     clearIndexName := clearIndexName st; inspectData := inspectData st;
     toasts := toasts st; requests := requests st |}.

Definition setInspecting (b : bool) (st : State) : State :=
  {| uploading := uploading st; inspecting := b; clearing := clearing st;
     clearIndexName := clearIndexName st; inspectData := inspectData st;
     toasts := toasts st; requests := requests st |}.

Definition setClearing (b : bool) (st : State) : State :=
  {| uploading := uploading st; inspecting := inspecting st; clearing := b;
     clearIndexName := clearIndexName st; inspectData := inspectData st;
     toasts := toasts st; requests := requests st |}.

Definition setClearIndexName (name : jsstring) (st : State) : State :=
  {| uploading := uploading st; inspecting := inspecting st;
     clearing := clearing st;
     clearIndexName := name; inspectData := inspectData st;
     toasts := toasts st; requests := requests st |}.

Definition fetch (r : Api.Request) (st : State) : State :=
  {| uploading := uploading st; inspecting := inspecting st;
     clearing := clearing st;
     clearIndexName := clearIndexName st; inspectData := inspectData st;
     toasts := toasts st; requests := requests st ++ [r] |}.

Definition initial : State :=
  {| uploading := false; inspecting := false; clearing := false;
     clearIndexName := []; inspectData := None;
     toasts := []; requests := [] |}.

(** [handleFileUpload], up to its [await]; [target_files] is
    [event.target.files], a list of files or [null]. *)
Definition handleFileUpload (target_files : option (list Api.File))
  (st : State) : State :=
  let files := match target_files with Some l => l | None => [] end in
  if Nat.eqb (List.length files) 0 then st
  else
    let st := setUploading true st in
    fetch (Api.uploadDocuments_request files) st.

(** [handleInspectStructure], up to its [await]. *)
Definition handleInspectStructure (st : State) : State :=
  let st := setInspecting true st in
  fetch Api.inspectStructure_request st.

(** [clearIndexName || undefined]. *)
Definition clearIndexName_or_undefined (name : jsstring) : option jsstring :=
  if ToBoolean (Some (JString name)) then Some name else None.

(** [handleClearIndex], up to its [await]. *)
Definition handleClearIndex (st : State) : State :=
  let st := setClearing true st in
  fetch (Api.clearIndex_request
           (clearIndexName_or_undefined (clearIndexName st))) st.

End AdminSidebar.

(* ================================================================== *)
(** * components/ChatInterface.tsx *)
(* ================================================================== *)

Module ChatInterface.
Import JS.
Import Api.
Local Open Scope N_scope.

(** The [messages] of the page (its [onMessagesUpdate] is the setter), the
    state of the component, the toasts it has raised and the requests it has
    issued. *)
Record State := {
  messages : list ChatMessage;
  input : jsstring;
  isLoading : bool;
  logs : list JsValue;
  toasts : list Toast;
  requests : list Request
}.

Definition initial : State :=
  {| messages := []; input := []; isLoading := false; logs := [];
     toasts := []; requests := [] |}.

Definition onMessagesUpdate (ms : list ChatMessage) (st : State) : State :=
  {| messages := ms; input := input st; isLoading := isLoading st;
     logs := logs st; toasts := toasts st; requests := requests st |}.

Definition setInput (text : jsstring) (st : State) : State :=
  {| messages := messages st; input := text; isLoading := isLoading st;
     logs := logs st; toasts := toasts st; requests := requests st |}.

Definition setIsLoading (b : bool) (st : State) : State :=
  {| messages := messages st; input := input st; isLoading := b;
     logs := logs st; toasts := toasts st; requests := requests st |}.

Definition setLogs (l : list JsValue) (st : State) : State :=
  {| messages := messages st; input := input st; isLoading := isLoading st;
     logs := l; toasts := toasts st; requests := requests st |}.

Definition toast (t : Toast) (st : State) : State :=
  {| messages := messages st; input := input st; isLoading := isLoading st;
     logs := logs st; toasts := toasts st ++ [t]; requests := requests st |}.

Definition fetch (r : Request) (st : State) : State :=
  {| messages := messages st; input := input st; isLoading := isLoading st;
     logs := logs st; toasts := toasts st; requests := requests st ++ [r] |}.

(** ** Statements that change the state and may throw

    A statement maps the state to a completion and the state it leaves; a
    [Throw] keeps the changes made before it. *)

Definition M (A : Type) : Type := State -> Completion A * State.

Definition ret {A : Type} (a : A) : M A := fun st => (Normal a, st).

Definition bind {A B : Type} (m : M A) (k : A -> M B) : M B :=
  fun st =>
    match m st with
    | (Normal a, st') => k a st'
    | (Throw e, st') => (Throw e, st')
    end.

(** An expression that may throw and leaves the state as it is. *)
Definition eval {A : Type} (c : Completion A) : M A := fun st => (c, st).

(** A setter, a [toast], a [fetch]. *)
Definition act (f : State -> State) : M unit := fun st => (Normal tt, f st).

(** [try { body } catch (error) { handler } finally { cleanup }]. *)
Definition try_catch_finally (body : M unit) (handler : Thrown -> M unit)
  (cleanup : M unit) : M unit :=
  fun st =>
    let (r, st1) :=
      match body st with
      | (Normal a, st') => (Normal a, st')
      | (Throw error, st') => handler error st'
      end in
    match cleanup st1 with
    | (Normal _, st2) => (r, st2)
    | (Throw e, st2) => (Throw e, st2)
    end.

Notation "x <-- m ;;; k" := (bind m (fun x => k))
  (at level 61, m at next level, right associativity).
Notation "m ;;; k" := (bind m (fun _ => k))
  (at level 61, right associativity).

(** ** The texts of the component *)

Definition no_answer_text : jsstring :=
  [9888; 65039] ++ lit " No answer received.".

Definition apology_text : jsstring :=
  [10060] ++ lit " Sorry, I encountered an error while processing your request. Please try again.".

Definition no_metadata_text : jsstring := lit "No metadata".

(** ** handleSend *)

(** [handleSend] up to its [await]. The result is the state and, when the
    request has been issued, the [updatedMessages] that the rest of the
    function holds. *)
Definition handleSend (now : jsstring) (st : State)
  : State * option (list ChatMessage) :=
  let question := trim (input st) in
  if negb (ToBoolean (Some (JString question))) || isLoading st then (st, None)
  else
    let userMessage :=
      {| role := user; content := question; sources := None;
         metadata := None; timestamp := now |} in
    let updatedMessages := messages st ++ [userMessage] in
    let st := onMessagesUpdate updatedMessages st in
    let st := setInput [] st in
    let st := setIsLoading true st in
    let st := fetch (query_request question) st in
    (st, Some updatedMessages).

(** The [try] block, from the point where the request settles with [o]. *)
Definition handleSend_try (updatedMessages : list ChatMessage)
  (o : FetchOutcome) (now : jsstring) : M unit :=
  response <-- eval (query o) ;;;
  (* Defensive formatting *)
  response_answer <-- eval (Get response (lit "answer")) ;;;
  let answer :=
    match response_answer with
    | Some (JString s) => s
    | _ => no_answer_text
    end in
  response_sources <-- eval (Get response (lit "sources")) ;;;
  let sources :=
    match response_sources with
    | Some (JArray elems) => elems
    | Some (JString s) =>
        map JString
          (filter (fun line => ToBoolean (Some (JString line))) (split 10 s))
    | _ => []
    end in
  response_metadata_used <-- eval (Get response (lit "metadata_used")) ;;;
  let metadata :=
    match response_metadata_used with
    | Some (JString s) => s
    | Some v =>
        if ToBoolean (Some v) then JSON_stringify_indent v 2
        else no_metadata_text
    | None => no_metadata_text
    end in
  (* Update logs from API response *)
  response_logs <-- eval (Get response (lit "logs")) ;;;
  match response_logs with
  | Some (JArray elems) => act (setLogs elems)
  | _ => ret tt
  end ;;;
  let assistantMessage :=
    {| role := assistant; content := answer; sources := Some sources;
       metadata := Some metadata; timestamp := now |} in
  act (onMessagesUpdate (updatedMessages ++ [assistantMessage])).

(** The [catch] block. *)
Definition handleSend_catch (updatedMessages : list ChatMessage)
  (error : Thrown) (now : jsstring) : M unit :=
  let errorMessage :=
    {| role := assistant; content := apology_text; sources := None;
       metadata := None; timestamp := now |} in
  act (onMessagesUpdate (updatedMessages ++ [errorMessage])) ;;;
  act (toast {| title := lit "Error";
                description :=
                  match error with
                  | ThrownError e => message e
                  | ThrownValue _ => lit "Connection error"
                  end;
                variant := Some (lit "destructive") |}).

(** The [finally] block; giving the focus to the input leaves the state as
    it is. *)
Definition handleSend_finally : M unit :=
  act (setIsLoading false).

(** [handleSend] from the point where the request settles with [o]. *)
Definition handleSend_settle (updatedMessages : list ChatMessage)
  (o : FetchOutcome) (now : jsstring) (st : State) : State :=
  snd (try_catch_finally
         (handleSend_try updatedMessages o now)
         (fun error => handleSend_catch updatedMessages error now)
         handleSend_finally st).

(** ** handleClearChat *)

Definition handleClearChat (st : State) : State :=
  let st := onMessagesUpdate [] st in
  toast {| title := lit "Chat Cleared";
           description := lit "Chat history has been cleared";
           variant := None |} st.

(** ** The component at run time

    The state together with the calls of [handleSend] that wait for their
    request, each with the [updatedMessages] it holds. *)
Record World := {
  ui : State;
  waiting : list (list ChatMessage)
}.

Definition start : World := {| ui := initial; waiting := [] |}.

(** The send button or the Enter key. *)
Definition send (now : jsstring) (w : World) : World :=
  let (st, k) := handleSend now (ui w) in
  {| ui := st;
     waiting := match k with
                | Some updatedMessages => waiting w ++ [updatedMessages]
                | None => waiting w
                end |}.

Inductive step : World -> World -> Prop :=
| step_change (text : jsstring) (w : World) :
    step w {| ui := setInput text (ui w); waiting := waiting w |}
| step_send (now : jsstring) (w : World) :
    step w (send now w)
| step_settle (w : World) (before after : list (list ChatMessage))
    (updatedMessages : list ChatMessage) (o : FetchOutcome) (now : jsstring) :
    waiting w = before ++ updatedMessages :: after ->
    step w {| ui := handleSend_settle updatedMessages o now (ui w);
              waiting := before ++ after |}
| step_clear (w : World) :
    step w {| ui := handleClearChat (ui w); waiting := waiting w |}.

Inductive reachable : World -> Prop :=
| reachable_start : reachable start
| reachable_step (w w' : World) : reachable w -> step w w' -> reachable w'.

End ChatInterface.

(* ================================================================== *)
(** * components/ChatInterface.tsx: the controls of the view *)
(* ================================================================== *)

Module ChatView.
Import JS.
Import Api.
Import ChatInterface.

(** [disabled] of the input field. *)
Definition input_disabled (st : State) : bool := isLoading st.



(** The clear button is rendered when [messages.length > 0]. *)
Definition clear_button_shown (st : State) : bool :=
  Nat.ltb 0 (List.length (messages st)).

End ChatView.

(* ================================================================== *)
(** * components/AdminSidebar.tsx: the handlers after their [await] *)
(* ================================================================== *)

Module AdminPanel.
Import JS.
Import Api.

(** A toast of the admin handlers. The description of the toast that
    reports a cleared index is a property of the decoded body, which is any
    value or [undefined]; the other descriptions are strings. *)
Record Notice := {
  notice_title : jsstring;
  notice_description : option JsValue;
  notice_variant : option jsstring
}.

(** The component, the toasts its handlers raise after their [await], and
    the selection of the file input ([event.target]). *)
Record Panel := {
  component : AdminSidebar.State;
  notices : list Notice;
  file_input : list File
}.

Definition Stmt (A : Type) : Type := Panel -> Completion A * Panel.

Definition ret {A : Type} (a : A) : Stmt A := fun p => (Normal a, p).

Definition bind {A B : Type} (m : Stmt A) (k : A -> Stmt B) : Stmt B :=
  fun p =>
    match m p with
    | (Normal a, p') => k a p'
    | (Throw e, p') => (Throw e, p')
    end.

Definition eval {A : Type} (c : Completion A) : Stmt A := fun p => (c, p).

Definition try_catch_finally (body : Stmt unit) (handler : Thrown -> Stmt unit)
  (cleanup : Stmt unit) : Stmt unit :=
  fun p =>
    let (r, p1) :=
      match body p with
      | (Normal a, p') => (Normal a, p')
      | (Throw error, p') => handler error p'
      end in
    match cleanup p1 with
    | (Normal _, p2) => (r, p2)
    | (Throw e, p2) => (Throw e, p2)
    end.

Notation "x <-- m ;;; k" := (bind m (fun x => k))
  (at level 61, m at next level, right associativity).
Notation "m ;;; k" := (bind m (fun _ => k))
  (at level 61, right associativity).

(** A setter of the component. *)
Definition set (f : AdminSidebar.State -> AdminSidebar.State) : Stmt unit :=
  fun p =>
    (Normal tt,
     {| component := f (component p); notices := notices p;
        file_input := file_input p |}).

Definition toast (n : Notice) : Stmt unit :=
  fun p =>
    (Normal tt,
     {| component := component p; notices := notices p ++ [n];
        file_input := file_input p |}).

(** [event.target.value = ""]: the file input loses its selection. *)
Definition reset_file_input : Stmt unit :=
  fun p =>
    (Normal tt,
     {| component := component p; notices := notices p; file_input := [] |}).

Definition setInspectData (v : option JsValue) (st : AdminSidebar.State)
  : AdminSidebar.State :=
  {| AdminSidebar.uploading := AdminSidebar.uploading st;
     AdminSidebar.inspecting := AdminSidebar.inspecting st;
     AdminSidebar.clearing := AdminSidebar.clearing st;
     AdminSidebar.clearIndexName := AdminSidebar.clearIndexName st;
     AdminSidebar.inspectData := v;
     AdminSidebar.toasts := AdminSidebar.toasts st;
     AdminSidebar.requests := AdminSidebar.requests st |}.

(** [error instanceof Error ? error.message : "Unknown error"]. *)
Definition error_description (error : Thrown) : jsstring :=
  match error with
  | ThrownError e => message e
  | ThrownValue _ => lit "Unknown error"
  end.

(** The decimal text of a length, as a template literal prints it. *)
Definition decimal (n : nat) : jsstring :=
  lit (NilZero.string_of_uint (Nat.to_uint n)).

(** The change of the file input: [handleFileUpload] up to its [await], on
    the selection of the input. *)
Definition handleFileUpload (p : Panel) : Panel :=
  {| component :=
       AdminSidebar.handleFileUpload (Some (file_input p)) (component p);
     notices := notices p;
     file_input := file_input p |}.

(** [handleFileUpload] from the point where the request settles with [o];
    [files] is the copy of the selection made before the request. *)
Definition handleFileUpload_settle (files : list File) (o : FetchOutcome)
  : Stmt unit :=
  try_catch_finally
    (result <-- eval (uploadDocuments o) ;;;
     toast {| notice_title := lit "Upload Successful";
              notice_description :=
                Some (JString (lit "Uploaded " ++ decimal (List.length files)
                                 ++ lit " documents successfully"));
              notice_variant := None |})
    (fun error =>
       toast {| notice_title := lit "Upload Failed";
                notice_description := Some (JString (error_description error));
                notice_variant := Some (lit "destructive") |})
    (set (AdminSidebar.setUploading false) ;;;
     (* Clear the input *)
     reset_file_input).

(** [handleInspectStructure] from the point where the request settles. *)
Definition handleInspectStructure_settle (o : FetchOutcome) : Stmt unit :=
  try_catch_finally
    (structure <-- eval (inspectStructure o) ;;;
     set (setInspectData (Some structure)) ;;;
     toast {| notice_title := lit "Structure Retrieved";
              notice_description :=
                Some (JString (lit "Weaviate structure fetched successfully"));
              notice_variant := None |})
    (fun error =>
       toast {| notice_title := lit "Inspect Failed";
                notice_description := Some (JString (error_description error));
                notice_variant := Some (lit "destructive") |})
    (set (AdminSidebar.setInspecting false)).

(** [handleClearIndex] from the point where the request settles. *)
Definition handleClearIndex_settle (o : FetchOutcome) : Stmt unit :=
  try_catch_finally
    (result <-- eval (clearIndex o) ;;;
     result_message <-- eval (Get result (lit "message")) ;;;
     toast {| notice_title := lit "Clear Successful";
              notice_description := result_message;
              notice_variant := None |} ;;;
     set (AdminSidebar.setClearIndexName []))
    (fun error =>
       toast {| notice_title := lit "Clear Failed";
                notice_description := Some (JString (error_description error));
                notice_variant := Some (lit "destructive") |})
    (set (AdminSidebar.setClearing false)).


End AdminPanel.

(* ================================================================== *)
(** * Definitions used to state the properties *)
(* ================================================================== *)

Import JS.
Import Api.
Local Open Scope N_scope.

(** The property [key] of a response body that is not [null], as [Get]
    reads it. *)
Definition field (response : JsValue) (key : jsstring) : option JsValue :=
  match response with
  | JObject props => ownProperty key props
  | _ => None
  end.

(** [filter(Boolean)] on strings keeps the strings that are not empty. *)
Definition nonempty (line : jsstring) : bool := ToBoolean (Some (JString line)).

(** The lines of a text that are not empty, read off the text from left to
    right: [current] is the line being read, and a line ends at a line feed
    or at the end of the text. *)
Fixpoint nonempty_lines_from (current s : jsstring) : list jsstring :=
  match s with
  | [] => match current with [] => [] | _ => [current] end
  | c :: r =>
      if N.eqb c 10
      then match current with [] => [] | _ => [current] end
             ++ nonempty_lines_from [] r
      else nonempty_lines_from (current ++ [c]) r
  end.

Definition nonempty_lines (s : jsstring) : list jsstring :=
  nonempty_lines_from [] s.

(** At most one call of [handleSend] waits for its request, and one does
    exactly when the component is loading. *)
Definition one_query_at_most (w : ChatInterface.World) : Prop :=
  (ChatInterface.isLoading (ChatInterface.ui w) = false
   /\ ChatInterface.waiting w = [])
  \/ (ChatInterface.isLoading (ChatInterface.ui w) = true
      /\ exists k, ChatInterface.waiting w = [k]).

(** The body of the request with which Clear asks for every collection. *)
Definition all_collections_body : Body :=
  TextBody (JSON_stringify (JObject [(lit "index_name", JNull)])).

(** A text of blanks only: white space and line terminators. *)
Definition blank (s : jsstring) : bool := forallb isTrimmed s.

Definition Role_eqb (a b : Role) : bool :=
  match a, b with
  | user, user => true
  | assistant, assistant => true
  | _, _ => false
  end.

Definition other (r : Role) : Role :=
  match r with user => assistant | assistant => user end.

(** The roles of the messages alternate, the first being [expected]. *)
Fixpoint alternates (expected : Role) (l : list ChatMessage) : bool :=
  match l with
  | [] => true
  | m :: rest =>
      Role_eqb (role m) expected && alternates (other expected) rest
  end.

(** A request of the chat: the query request of a question that is not
    empty and has no blank at either end. *)
Definition well_formed_query (r : Request) : Prop :=
  exists question : jsstring,
    r = query_request question /\ question <> [] /\ trim question = question.

(** What the session keeps between two events: the messages alternate from
    a user message on, they are a whole number of exchanges when no query
    is in flight, and a call that waits holds messages that alternate and
    end with the user message it sent. *)
Definition session_shape (w : ChatInterface.World) : Prop :=
  alternates user (ChatInterface.messages (ChatInterface.ui w)) = true
  /\ (ChatInterface.isLoading (ChatInterface.ui w) = false ->
      Nat.even (List.length (ChatInterface.messages (ChatInterface.ui w)))
      = true)
  /\ (forall k, In k (ChatInterface.waiting w) ->
        alternates user k = true /\ Nat.odd (List.length k) = true).

Definition not_line_feed (c : N) : bool := negb (N.eqb c 10).

(** A code unit that is not a control character. *)
Definition printable (c : N) : Prop := 32 <= c.

(** ** Concrete inputs *)

Definition number_one : JsNumber := {| num_falsy := false; num_json := lit "1" |}.
Definition number_zero : JsNumber := {| num_falsy := true; num_json := lit "0" |}.

Definition response_with (v : JsValue) : FetchOutcome :=
  Resolved {| ok := true; statusText := lit "OK"; json := Parsed v |}.

Definition not_found : Response :=
  {| ok := false; statusText := lit "Not Found";
     json := Parsed (JObject [(lit "detail", JString (lit "Not Found"))]) |}.

Definition typed (text : jsstring) : ChatInterface.State :=
  ChatInterface.setInput text ChatInterface.initial.

Definition asked : list ChatMessage :=
  [{| role := user; content := lit "hi"; sources := None; metadata := None;
      timestamp := lit "10:00" |}].

(** The component after [hi] has been typed and sent at 10:00. *)
Definition sending : ChatInterface.World :=
  ChatInterface.send (lit "10:00")
    {| ChatInterface.ui :=
         ChatInterface.setInput (lit "hi")
           (ChatInterface.ui ChatInterface.start);
       ChatInterface.waiting := ChatInterface.waiting ChatInterface.start |}.

(** A body whose sources are a text of two lines and whose metadata is an
    object. *)
Definition body_text_sources : JsValue :=
  JObject [(lit "answer", JString (lit "ok"));
           (lit "sources", JString (lit "a" ++ [10] ++ lit "b" ++ [10]));
           (lit "metadata_used", JObject [(lit "x", JNumber number_one)])].

Definition body_array_sources : JsValue :=
  JObject [(lit "answer", JString (lit "ok"));
           (lit "sources", JArray [JString (lit "a"); JString (lit "b")]);
           (lit "logs", JArray [JString (lit "retrieved 2 chunks")])].

Definition body_answer_only : JsValue :=
  JObject [(lit "answer", JString (lit "ok"))].

(** Bodies whose metadata is present, is not a string and is falsy. *)
Definition body_metadata_false : JsValue :=
  JObject [(lit "answer", JString (lit "ok"));
           (lit "metadata_used", JBool false)].

Definition body_metadata_zero : JsValue :=
  JObject [(lit "answer", JString (lit "ok"));
           (lit "metadata_used", JNumber number_zero)].

Definition body_metadata_null : JsValue :=
  JObject [(lit "answer", JString (lit "ok"));
           (lit "metadata_used", JNull)].

(** A session with one exchange and a log batch of one line. *)
Definition answered : ChatInterface.State :=
  ChatInterface.handleSend_settle asked (response_with body_array_sources)
    (lit "10:01") (ChatInterface.ui sending).

(* ================================================================== *)
(** * Properties of the built-ins *)
(* ================================================================== *)

Section Builtins.

Lemma split_not_nil (sep : N) (s : jsstring) : split sep s <> [].
Proof.
  destruct s as [|c r]; simpl; [discriminate|].
  destruct (N.eqb c sep); [discriminate|].
  destruct (split sep r); discriminate.
Qed.

(** Joining the pieces of [split] with the separator gives the text back. *)
Lemma join_split (sep : N) (s : jsstring) : join [sep] (split sep s) = s.
Proof.
  induction s as [|c r IH]; [reflexivity|].
  simpl. destruct (N.eqb c sep) eqn:E.
  - apply N.eqb_eq in E; subst c.
    pose proof (split_not_nil sep r) as Hne.
    destruct (split sep r) as [|h t]; [contradiction|].
    simpl in *. now rewrite IH.
  - pose proof (split_not_nil sep r) as Hne.
    destruct (split sep r) as [|h t]; [contradiction|].
    destruct t as [|h' t']; simpl in *; now rewrite <- IH.
Qed.

(** No piece of [split] holds the separator. *)
Lemma split_no_separator (sep : N) (s piece : jsstring) :
  In piece (split sep s) -> ~ In sep piece.
Proof.
  revert piece. induction s as [|c r IH]; simpl; intros piece Hin.
  - destruct Hin as [<-|[]]. intros [].
  - destruct (N.eqb c sep) eqn:E.
    + destruct Hin as [<-|Hin]; [intros []|now apply IH].
    + apply N.eqb_neq in E.
      destruct (split sep r) as [|h t].
      * destruct Hin as [<-|[]]. intros [->|[]]. now apply E.
      * destruct Hin as [<-|Hin].
        -- intros [->|Hh]; [now apply E|]. apply (IH h); simpl; auto.
        -- apply IH. simpl; auto.
Qed.

Lemma nonempty_lines_from_split (s current : jsstring) :
  filter nonempty
    (match split 10 s with
     | [] => [current]
     | h :: t => (current ++ h) :: t
     end)
  = nonempty_lines_from current s.
Proof.
  revert current. induction s as [|c r IH]; intros current; simpl.
  - rewrite app_nil_r. destruct current; reflexivity.
  - destruct (N.eqb c 10) eqn:E.
    + rewrite app_nil_r. rewrite <- (IH []).
      pose proof (split_not_nil 10 r) as Hne.
      destruct (split 10 r) as [|h t]; [contradiction|].
      destruct current; reflexivity.
    + rewrite <- (IH (current ++ [c])).
      destruct (split 10 r) as [|h t]; simpl.
      * reflexivity.
      * now rewrite <- app_assoc.
Qed.

(** [s.split("\n").filter(Boolean)] is the list of the non-empty lines. *)
Lemma split_filter_lines (s : jsstring) :
  filter nonempty (split 10 s) = nonempty_lines s.
Proof.
  unfold nonempty_lines. rewrite <- nonempty_lines_from_split.
  pose proof (split_not_nil 10 s) as Hne.
  destruct (split 10 s); [contradiction|reflexivity].
Qed.

(** [trim] removes leading and trailing blanks and nothing else. *)
Example trim_example :
  trim (lit "  what is " ++ [160; 10]) = lit "what is".
Proof. reflexivity. Qed.

Example trim_blank : trim ([32; 9; 10; 12288]) = [].
Proof. reflexivity. Qed.

(** [JSON.stringify({x: 1}, null, 2)]: an opening brace, a line with two
    spaces, the quoted key, a colon, a space and the number, and the closing
    brace on a line of its own. *)
Example stringify_indent_example :
  JSON_stringify_indent (JObject [(lit "x", JNumber number_one)]) 2
  = lit "{" ++ [10] ++ lit "  " ++ [34] ++ lit "x" ++ [34] ++ lit ": 1"
      ++ [10] ++ lit "}".
Proof. reflexivity. Qed.

Example stringify_nested_example :
  JSON_stringify
    (JObject [(lit "a", JArray [JBool true; JNull; JObject []]);
              (lit "b", JString ([9] ++ lit "q" ++ [34; 55357]))])
  = lit "{" ++ [34] ++ lit "a" ++ [34] ++ lit ":[true,null,{}],"
      ++ [34] ++ lit "b" ++ [34] ++ lit ":" ++ [34; 92] ++ lit "tq"
      ++ [92; 34; 92] ++ lit "ud83d" ++ [34] ++ lit "}".
Proof. reflexivity. Qed.

Lemma JsValue_null_dec (v : JsValue) : {v = JNull} + {v <> JNull}.
Proof. destruct v; (now left) || (right; discriminate). Qed.

Lemma Get_not_null (response : JsValue) (key : jsstring) :
  response <> JNull -> Get response key = Normal (field response key).
Proof. destruct response; intros H; try reflexivity. now elim H. Qed.

End Builtins.

(* ================================================================== *)
(** * The HTTP client facade *)
(* ================================================================== *)

Section Facade.

(** The error a method throws on a response whose status is not a success. *)
Lemma status_error (prefix : jsstring) (r : Response)
  (rest : Response -> Completion JsValue) :
  ok r = false ->
  andThen (await_fetch (Resolved r))
    (fun response =>
       if negb (ok response)
       then throw_Error (prefix ++ statusText response)
       else rest response)
  = Throw (ThrownError {| err_class := Error;
                          message := prefix ++ statusText r |}).
Proof. intros H. simpl. now rewrite H. Qed.

(** C8. Each of the four calls of the facade fails, on a response whose
    status is not a success, with an [Error] whose message ends with the
    status text of the response, and fails, when no response is received,
    with the [TypeError] of [fetch]; an error of the first kind is never an
    error of the second kind. *)
Theorem facade_errors (r : Response) (msg : jsstring) :
  ok r = false ->
  let http (prefix : jsstring) : Completion JsValue :=
    Throw (ThrownError {| err_class := Error;
                          message := prefix ++ statusText r |}) in
  let transport : Completion JsValue :=
    Throw (ThrownError {| err_class := TypeError; message := msg |}) in
  (query (Resolved r) = http (lit "Query failed: ")
   /\ uploadDocuments (Resolved r) = http (lit "Upload failed: ")
   /\ inspectStructure (Resolved r) = http (lit "Inspect failed: ")
   /\ clearIndex (Resolved r) = http (lit "Clear failed: "))
  /\ (query (NetworkError msg) = transport
      /\ uploadDocuments (NetworkError msg) = transport
      /\ inspectStructure (NetworkError msg) = transport
      /\ clearIndex (NetworkError msg) = transport)
  /\ (forall prefix : jsstring, http prefix <> transport).
Proof.
  intros Hok http transport. repeat split.
  - now apply status_error.
  - now apply status_error.
  - now apply status_error.
  - now apply status_error.
  - intros prefix. unfold http, transport. intros H.
    inversion H.
Qed.

Lemma facade_errors_witness :
  ok not_found = false
  /\ query (Resolved not_found)
     = Throw (ThrownError {| err_class := Error;
                             message := lit "Query failed: Not Found" |})
  /\ query (NetworkError (lit "Failed to fetch"))
     = Throw (ThrownError {| err_class := TypeError;
                             message := lit "Failed to fetch" |}).
Proof.
  split; [reflexivity|].
  pose proof (facade_errors not_found (lit "Failed to fetch") eq_refl) as H.
  cbv zeta in H. destruct H as [[Hq _] [[Ht _] _]].
  split; [exact Hq | exact Ht].
Defined.

(** A response with a success status gives the decoded body. *)
Lemma facade_success (r : Response) (v : JsValue) :
  ok r = true -> json r = Parsed v ->
  query (Resolved r) = Normal v
  /\ uploadDocuments (Resolved r) = Normal v
  /\ inspectStructure (Resolved r) = Normal v
  /\ clearIndex (Resolved r) = Normal v.
Proof.
  intros Hok Hj.
  unfold query, uploadDocuments, inspectStructure, clearIndex, await_json.
  simpl. now rewrite Hok, Hj.
Qed.

(** Whatever the facade throws is an instance of [Error]. *)
Lemma query_throws_Error (o : FetchOutcome) (error : Thrown) :
  query o = Throw error -> exists e, error = ThrownError e.
Proof.
  unfold query, await_fetch, await_json, throw_Error.
  destruct o as [msg|r]; simpl.
  - intros H; inversion H; eauto.
  - destruct (ok r); simpl.
    + destruct (json r); intros H; inversion H; eauto.
    + intros H; inversion H; eauto.
Qed.

End Facade.

(* ================================================================== *)
(** * The admin operations *)
(* ================================================================== *)

Section Admin.

Import AdminSidebar.

Example all_collections_body_text :
  all_collections_body
  = TextBody (lit "{" ++ [34] ++ lit "index_name" ++ [34] ++ lit ":null}").
Proof. reflexivity. Qed.

(** C7, as the code has it. [handleClearIndex] sets the busy flag and issues
    one DELETE request to /clear whose body is the JSON text of
    [{index_name: null}] when the name is the empty string, and of
    [{index_name: name}], with the name unchanged, for every other name. *)
Theorem handleClearIndex_request (st : State) :
  let name := clearIndexName st in
  handleClearIndex st
  = fetch
      {| url := API_BASE ++ lit "/clear";
         method := lit "DELETE";
         headers := [(lit "Content-Type", lit "application/json")];
         body :=
           Some (match name with
                 | [] => all_collections_body
                 | _ :: _ =>
                     TextBody
                       (JSON_stringify
                          (JObject [(lit "index_name", JString name)]))
                 end) |}
      (setClearing true st).
Proof.
  destruct st as [u i c name d t r]. simpl.
  destruct name; reflexivity.
Qed.

(** C7 fails for a name of blanks: the name of one space is sent as it is. *)
Lemma handleClearIndex_blank_name_sent :
  let st := handleClearIndex (setClearIndexName (lit " ") initial) in
  map body (requests st)
  = [Some (TextBody (lit "{" ++ [34] ++ lit "index_name" ++ [34] ++ lit ":"
                       ++ [34] ++ lit " " ++ [34] ++ lit "}"))]
  /\ map body (requests st) <> [Some all_collections_body].
Proof. split; [reflexivity | discriminate]. Qed.

(** C9. With no file selected, whether the list of files is empty or
    absent, [handleFileUpload] leaves the state as it is: the busy flag is
    not set and no request is issued. *)
Theorem handleFileUpload_no_files (st : State) :
  handleFileUpload (Some []) st = st
  /\ handleFileUpload None st = st
  /\ uploading (handleFileUpload (Some []) st) = uploading st
  /\ requests (handleFileUpload (Some []) st) = requests st
  /\ uploading (handleFileUpload (Some []) initial) = false
  /\ requests (handleFileUpload (Some []) initial) = [].
Proof. repeat split. Qed.

(** With a file selected the busy flag is set and one request is issued. *)
Lemma handleFileUpload_files (file : File) (files : list File) (st : State) :
  let st' := handleFileUpload (Some (file :: files)) st in
  uploading st' = true
  /\ requests st' = requests st ++ [uploadDocuments_request (file :: files)].
Proof. split; reflexivity. Qed.

End Admin.

(* ================================================================== *)
(** * The query handler *)
(* ================================================================== *)

Section Query.

Import ChatInterface.

Variable updatedMessages : list ChatMessage.
Variable now : jsstring.

(** The [try] block on a decoded body that is not [null]: it completes,
    replaces the log batch when [logs] is an array, and appends one
    assistant message. *)
Lemma handleSend_try_success (o : FetchOutcome) (response : JsValue)
  (st : State) :
  query o = Normal response -> response <> JNull ->
  exists m : ChatMessage,
    handleSend_try updatedMessages o now st
    = (Normal tt,
       onMessagesUpdate (updatedMessages ++ [m])
         (match field response (lit "logs") with
          | Some (JArray elems) => setLogs elems st
          | _ => st
          end))
    /\ role m = assistant
    /\ timestamp m = now
    /\ content m = match field response (lit "answer") with
                   | Some (JString s) => s
                   | _ => no_answer_text
                   end
    /\ sources m = Some match field response (lit "sources") with
                        | Some (JArray elems) => elems
                        | Some (JString s) => map JString (nonempty_lines s)
                        | _ => []
                        end
    /\ metadata m = Some match field response (lit "metadata_used") with
                         | Some (JString s) => s
                         | Some v => if ToBoolean (Some v)
                                     then JSON_stringify_indent v 2
                                     else no_metadata_text
                         | None => no_metadata_text
                         end.
Proof.
  intros Hq Hnn. unfold handleSend_try, bind, eval.
  rewrite Hq. rewrite !Get_not_null by assumption.
  eexists. split.
  - destruct (field response (lit "logs")) as [[]|]; reflexivity.
  - cbn [role timestamp content sources metadata]. repeat split.
    destruct (field response (lit "sources")) as [[]|]; try reflexivity.
    now rewrite <- split_filter_lines.
Qed.

(** The [try] block throws only an instance of [Error], only as the facade
    fails or as the decoded body is [null], and before any change of the
    state. *)
Lemma handleSend_try_failure (o : FetchOutcome) (error : Thrown)
  (st : State) :
  fst (handleSend_try updatedMessages o now st) = Throw error ->
  handleSend_try updatedMessages o now st = (Throw error, st)
  /\ (exists e, error = ThrownError e)
  /\ (query o = Throw error \/ query o = Normal JNull).
Proof.
  intros H. destruct (query o) as [response|e] eqn:Hq.
  - destruct (JsValue_null_dec response) as [->|Hnn].
    + unfold handleSend_try, bind, eval in *. rewrite Hq in *.
      simpl in *. inversion H; subst. repeat split; eauto.
    + destruct (handleSend_try_success o st Hq Hnn) as [m [Hm _]].
      rewrite Hm in H. discriminate.
  - unfold handleSend_try, bind, eval in *. rewrite Hq in *.
    simpl in H. inversion H; subst. repeat split; auto.
    eapply query_throws_Error; eauto.
Qed.

(** A failure of the facade and a [null] body both make the [try] block
    throw. *)
Lemma facade_failure_throws (o : FetchOutcome) (error : Thrown) (st : State) :
  query o = Throw error ->
  fst (handleSend_try updatedMessages o now st) = Throw error.
Proof.
  intros Hq. unfold handleSend_try, bind, eval. now rewrite Hq.
Qed.

Lemma null_body_throws (o : FetchOutcome) (st : State) :
  query o = Normal JNull ->
  exists e, err_class e = TypeError
    /\ fst (handleSend_try updatedMessages o now st) = Throw (ThrownError e).
Proof.
  intros Hq. unfold handleSend_try, bind, eval. rewrite Hq. simpl.
  eexists. split; [|reflexivity]. reflexivity.
Qed.

(** The state after a query that succeeded. *)
Lemma handleSend_settle_success (o : FetchOutcome) (st : State)
  (m : ChatMessage) (st' : State) :
  handleSend_try updatedMessages o now st
  = (Normal tt, onMessagesUpdate (updatedMessages ++ [m]) st') ->
  handleSend_settle updatedMessages o now st
  = setIsLoading false (onMessagesUpdate (updatedMessages ++ [m]) st').
Proof.
  intros H. unfold handleSend_settle, try_catch_finally. now rewrite H.
Qed.

(** The messages and the metadata after a query that succeeded. *)
Lemma metadata_fields (o : FetchOutcome) (response : JsValue) (st : State) :
  query o = Normal response -> response <> JNull ->
  exists m : ChatMessage,
    messages (handleSend_settle updatedMessages o now st)
    = updatedMessages ++ [m]
    /\ metadata m = Some match field response (lit "metadata_used") with
                         | Some (JString s) => s
                         | Some v => if ToBoolean (Some v)
                                     then JSON_stringify_indent v 2
                                     else lit "No metadata"
                         | None => lit "No metadata"
                         end.
Proof.
  intros Hq Hnn.
  destruct (handleSend_try_success o st Hq Hnn) as [m [Hm [_ [_ [_ [_ Hd]]]]]].
  exists m. split; [|exact Hd].
  erewrite handleSend_settle_success; [reflexivity | exact Hm].
Qed.

(** C4. When the query fails, that is when the [try] block throws, the error
    is an instance of [Error], and the handler sets the messages to the
    messages it holds followed by one assistant message with the apology
    text, no sources and no metadata, raises one toast whose description is
    the message of the error, leaves the log batch as it is and ends the
    loading. *)
Theorem query_failure_appends_apology (o : FetchOutcome) (error : Thrown)
  (st : State) :
  fst (handleSend_try updatedMessages o now st) = Throw error ->
  exists e : JsError,
    error = ThrownError e
    /\ handleSend_settle updatedMessages o now st
       = {| messages :=
              updatedMessages
                ++ [{| role := assistant; content := apology_text;
                       sources := None; metadata := None;
                       timestamp := now |}];
            input := input st;
            isLoading := false;
            logs := logs st;
            toasts :=
              toasts st
                ++ [{| title := lit "Error"; description := message e;
                       variant := Some (lit "destructive") |}];
            requests := requests st |}.
Proof.
  intros H.
  destruct (handleSend_try_failure o st H) as [Hrun [[e ->] _]].
  exists e. split; [reflexivity|].
  unfold handleSend_settle, try_catch_finally. rewrite Hrun.
  reflexivity.
Qed.

(** C5. After a query that succeeded, the messages are the messages the
    handler holds followed by one message whose sources are the elements of
    [sources] when it is an array, its non-empty lines when it is a string,
    and no source at all when it is absent or anything else. *)
Theorem sources_normalized (o : FetchOutcome) (response : JsValue)
  (st : State) :
  query o = Normal response -> response <> JNull ->
  exists m : ChatMessage,
    messages (handleSend_settle updatedMessages o now st)
    = updatedMessages ++ [m]
    /\ sources m = Some match field response (lit "sources") with
                        | Some (JArray elems) => elems
                        | Some (JString s) => map JString (nonempty_lines s)
                        | _ => []
                        end.
Proof.
  intros Hq Hnn.
  destruct (handleSend_try_success o st Hq Hnn) as [m [Hm [_ [_ [_ [Hs _]]]]]].
  exists m. split; [|exact Hs].
  erewrite handleSend_settle_success; [reflexivity | exact Hm].
Qed.

(** C6, as the code has it. After a query that succeeded, the metadata of
    the appended message is [metadata_used] itself when it is a string, its
    serialization with an indentation of two spaces when it is another
    value that is truthy, and the text [No metadata] when it is absent or
    another value that is falsy. *)
Theorem metadata_normalized (o : FetchOutcome) (response : JsValue)
  (st : State) :
  query o = Normal response -> response <> JNull ->
  exists m : ChatMessage,
    messages (handleSend_settle updatedMessages o now st)
    = updatedMessages ++ [m]
    /\ metadata m = Some match field response (lit "metadata_used") with
                         | Some (JString s) => s
                         | Some v => if ToBoolean (Some v)
                                     then JSON_stringify_indent v 2
                                     else lit "No metadata"
                         | None => lit "No metadata"
                         end.
Proof.
  intros Hq Hnn. exact (metadata_fields o st Hq Hnn).
Qed.

(** C10. When [metadata_used] is present and is not a string, the metadata
    of the appended message is the serialization exactly when the value is
    truthy and the text [No metadata] otherwise; the falsy values are
    [null], [false] and the numbers that are zero or NaN. *)
Theorem falsy_metadata_is_sentinel (o : FetchOutcome) (response : JsValue)
  (st : State) (v : JsValue) :
  query o = Normal response -> response <> JNull ->
  field response (lit "metadata_used") = Some v ->
  is_string (Some v) = false ->
  (exists m : ChatMessage,
     messages (handleSend_settle updatedMessages o now st)
     = updatedMessages ++ [m]
     /\ metadata m = Some (if ToBoolean (Some v)
                           then JSON_stringify_indent v 2
                           else lit "No metadata"))
  /\ (ToBoolean (Some v) = false <->
      v = JNull \/ v = JBool false
      \/ exists x, v = JNumber x /\ num_falsy x = true).
Proof.
  intros Hq Hnn Hf Hs. split.
  - destruct (metadata_fields o st Hq Hnn) as [m [Hm Hd]].
    exists m. split; [exact Hm|].
    rewrite Hd, Hf. destruct v; try reflexivity. discriminate.
  - destruct v as [|b|x|s|l|ps]; simpl in *.
    + split; auto.
    + split.
      * intros ->. auto.
      * intros [H|[H|[x [H _]]]]; try discriminate. now inversion H.
    + split.
      * intros H. right; right. exists x. split; [reflexivity|].
        now destruct (num_falsy x).
      * intros [H|[H|[y [H Hy]]]]; try discriminate.
        inversion H; subst. now rewrite Hy.
    + discriminate.
    + split; [discriminate|].
      intros [H|[H|[y [H _]]]]; discriminate.
    + split; [discriminate|].
      intros [H|[H|[y [H _]]]]; discriminate.
Qed.

End Query.

(** ** The examples of the normalization *)

Section QueryExamples.

Import ChatInterface.

Example sources_array_example :
  map sources (messages answered)
  = [None; Some [JString (lit "a"); JString (lit "b")]].
Proof. reflexivity. Qed.

Example sources_text_example :
  map sources
    (messages (handleSend_settle asked (response_with body_text_sources)
                 (lit "10:01") (ui sending)))
  = [None; Some [JString (lit "a"); JString (lit "b")]].
Proof. reflexivity. Qed.

Example sources_absent_example :
  map sources
    (messages (handleSend_settle asked (response_with body_answer_only)
                 (lit "10:01") (ui sending)))
  = [None; Some []].
Proof. reflexivity. Qed.

Example metadata_object_example :
  map metadata
    (messages (handleSend_settle asked (response_with body_text_sources)
                 (lit "10:01") (ui sending)))
  = [None;
     Some (lit "{" ++ [10] ++ lit "  " ++ [34] ++ lit "x" ++ [34]
             ++ lit ": 1" ++ [10] ++ lit "}")].
Proof. reflexivity. Qed.

Example metadata_absent_example :
  map metadata
    (messages (handleSend_settle asked (response_with body_answer_only)
                 (lit "10:01") (ui sending)))
  = [None; Some (lit "No metadata")].
Proof. reflexivity. Qed.

Example logs_replaced_example :
  logs answered = [JString (lit "retrieved 2 chunks")]
  /\ logs (handleSend_settle asked (response_with body_answer_only)
             (lit "10:02") answered)
     = [JString (lit "retrieved 2 chunks")].
Proof. split; reflexivity. Qed.

(** C6 fails for a value that is present, is not a string and is falsy: for
    [metadata_used: false] the metadata is the text [No metadata], and the
    serialization of [false] is another text. The same holds for [0] and
    for [null]. *)
Lemma metadata_false_not_serialized :
  let metadata_after (body : JsValue) :=
    map metadata
      (messages (handleSend_settle asked (response_with body) (lit "10:01")
                   (ui sending))) in
  field body_metadata_false (lit "metadata_used") = Some (JBool false)
  /\ metadata_after body_metadata_false = [None; Some (lit "No metadata")]
  /\ JSON_stringify_indent (JBool false) 2 = lit "false"
  /\ metadata_after body_metadata_false
     <> [None; Some (JSON_stringify_indent (JBool false) 2)]
  /\ metadata_after body_metadata_zero = [None; Some (lit "No metadata")]
  /\ metadata_after body_metadata_null = [None; Some (lit "No metadata")].
Proof. cbv zeta. repeat split; try reflexivity. discriminate. Qed.

Lemma query_failure_appends_apology_witness :
  fst (handleSend_try asked (Resolved not_found) (lit "10:01") (ui sending))
  = Throw (ThrownError {| err_class := Error;
                          message := lit "Query failed: Not Found" |})
  /\ exists e : JsError,
      ThrownError {| err_class := Error;
                     message := lit "Query failed: Not Found" |}
      = ThrownError e
      /\ handleSend_settle asked (Resolved not_found) (lit "10:01")
           (ui sending)
         = {| messages :=
                asked ++ [{| role := assistant; content := apology_text;
                             sources := None; metadata := None;
                             timestamp := lit "10:01" |}];
              input := input (ui sending);
              isLoading := false;
              logs := logs (ui sending);
              toasts :=
                toasts (ui sending)
                  ++ [{| title := lit "Error"; description := message e;
                         variant := Some (lit "destructive") |}];
              requests := requests (ui sending) |}.
Proof.
  split; [reflexivity|].
  apply (@query_failure_appends_apology asked (lit "10:01")
           (Resolved not_found) _ (ui sending)).
  reflexivity.
Defined.

Lemma sources_normalized_witness :
  query (response_with body_text_sources) = Normal body_text_sources
  /\ body_text_sources <> JNull
  /\ exists m : ChatMessage,
      messages (handleSend_settle asked (response_with body_text_sources)
                  (lit "10:01") (ui sending))
      = asked ++ [m]
      /\ sources m = Some [JString (lit "a"); JString (lit "b")].
Proof.
  split; [reflexivity|]. split; [discriminate|].
  apply (@sources_normalized asked (lit "10:01")
           (response_with body_text_sources) body_text_sources (ui sending)).
  - reflexivity.
  - discriminate.
Defined.

Lemma metadata_normalized_witness :
  query (response_with body_text_sources) = Normal body_text_sources
  /\ body_text_sources <> JNull
  /\ exists m : ChatMessage,
      messages (handleSend_settle asked (response_with body_text_sources)
                  (lit "10:01") (ui sending))
      = asked ++ [m]
      /\ metadata m
         = Some (JSON_stringify_indent
                   (JObject [(lit "x", JNumber number_one)]) 2).
Proof.
  split; [reflexivity|]. split; [discriminate|].
  apply (@metadata_normalized asked (lit "10:01")
           (response_with body_text_sources) body_text_sources (ui sending)).
  - reflexivity.
  - discriminate.
Defined.

Lemma falsy_metadata_is_sentinel_witness :
  query (response_with body_metadata_zero) = Normal body_metadata_zero
  /\ body_metadata_zero <> JNull
  /\ field body_metadata_zero (lit "metadata_used")
     = Some (JNumber number_zero)
  /\ is_string (Some (JNumber number_zero)) = false
  /\ exists m : ChatMessage,
      messages (handleSend_settle asked (response_with body_metadata_zero)
                  (lit "10:01") (ui sending))
      = asked ++ [m]
      /\ metadata m = Some (lit "No metadata").
Proof.
  split; [reflexivity|]. split; [discriminate|].
  split; [reflexivity|]. split; [reflexivity|].
  apply (@falsy_metadata_is_sentinel asked (lit "10:01")
           (response_with body_metadata_zero) body_metadata_zero (ui sending)
           (JNumber number_zero)).
  - reflexivity.
  - discriminate.
  - reflexivity.
  - reflexivity.
Defined.

End QueryExamples.

(* ================================================================== *)
(** * The session *)
(* ================================================================== *)

Section Session.

Import ChatInterface.

(** C1, as the code has it. [handleClearChat] sets the messages to the empty
    list and raises the toast that confirms it; the log batch, as the rest
    of the state, stays as it is. *)
Theorem handleClearChat_clears_messages (st : State) :
  handleClearChat st
  = {| messages := [];
       input := input st;
       isLoading := isLoading st;
       logs := logs st;
       toasts :=
         toasts st
           ++ [{| title := lit "Chat Cleared";
                  description := lit "Chat history has been cleared";
                  variant := None |}];
       requests := requests st |}.
Proof. reflexivity. Qed.

(** C1 fails for the log batch: clearing a session that has one exchange and
    a log batch of one line empties the messages and keeps the line. *)
Lemma handleClearChat_keeps_logs :
  List.length (messages answered) = 2%nat
  /\ logs answered = [JString (lit "retrieved 2 chunks")]
  /\ messages (handleClearChat answered) = []
  /\ logs (handleClearChat answered) = [JString (lit "retrieved 2 chunks")]
  /\ logs (handleClearChat answered) <> [].
Proof. repeat split; try reflexivity. discriminate. Qed.

(** Whatever the outcome, the rest of [handleSend] ends the loading. *)
Lemma handleSend_settle_isLoading (k : list ChatMessage) (o : FetchOutcome)
  (now : jsstring) (st : State) :
  isLoading (handleSend_settle k o now st) = false.
Proof.
  unfold handleSend_settle, try_catch_finally.
  destruct (handleSend_try k o now st) as [[[]|error] st1]; reflexivity.
Qed.

(** Whatever the outcome, the rest of [handleSend] sets the messages to the
    messages it holds followed by one assistant message. *)
Lemma handleSend_settle_appends (k : list ChatMessage) (o : FetchOutcome)
  (now : jsstring) (st : State) :
  exists m : ChatMessage,
    role m = assistant
    /\ messages (handleSend_settle k o now st) = k ++ [m].
Proof.
  destruct (handleSend_try k o now st) as [[[]|error] st1] eqn:E.
  - destruct (query o) as [response|e] eqn:Hq.
    + destruct (JsValue_null_dec response) as [->|Hnn].
      * destruct (null_body_throws k now o st Hq) as [e [_ He]].
        rewrite E in He. discriminate.
      * destruct (handleSend_try_success k now o st Hq Hnn)
          as [m [Hm [Hr _]]].
        exists m. split; [exact Hr|].
        erewrite handleSend_settle_success; [reflexivity | exact Hm].
    + pose proof (facade_failure_throws k now o st Hq) as He.
      rewrite E in He. discriminate.
  - eexists. split; [|unfold handleSend_settle, try_catch_finally;
                      rewrite E; reflexivity].
    reflexivity.
Qed.

(** The log batch after the rest of [handleSend]: the array [logs] of the
    body when the query succeeded with one, and the batch as it was in every
    other case. *)
Lemma handleSend_settle_logs (k : list ChatMessage) (o : FetchOutcome)
  (now : jsstring) (st : State) :
  logs (handleSend_settle k o now st)
  = match query o with
    | Normal response =>
        match field response (lit "logs") with
        | Some (JArray elems) => elems
        | _ => logs st
        end
    | Throw _ => logs st
    end.
Proof.
  destruct (query o) as [response|e] eqn:Hq.
  - destruct (JsValue_null_dec response) as [->|Hnn].
    + unfold handleSend_settle, try_catch_finally, handleSend_try, bind, eval.
      rewrite Hq. reflexivity.
    + destruct (handleSend_try_success k now o st Hq Hnn) as [m [Hm _]].
      erewrite handleSend_settle_success; [|exact Hm].
      destruct (field response (lit "logs")) as [[]|]; reflexivity.
  - unfold handleSend_settle, try_catch_finally, handleSend_try, bind, eval.
    rewrite Hq. reflexivity.
Qed.

(** A send while the component is loading changes nothing. *)
Lemma handleSend_loading (now : jsstring) (st : State) :
  isLoading st = true -> handleSend now st = (st, None).
Proof.
  intros H. unfold handleSend. rewrite H.
  now rewrite orb_true_r.
Qed.

Lemma one_query_at_most_step (w w' : World) :
  one_query_at_most w -> step w w' -> one_query_at_most w'.
Proof.
  intros Hinv Hstep. destruct Hstep as [text w|now w|w before after k o now Hw|w].
  - exact Hinv.
  - unfold send. destruct Hinv as [[Hl Hw]|[Hl [k Hw]]].
    + unfold handleSend. rewrite Hl, orb_false_r.
      destruct (negb (ToBoolean (Some (JString (trim (input (ui w)))))));
        simpl.
      * left. now split.
      * right. split; [reflexivity|]. rewrite Hw. simpl. eauto.
    + rewrite (handleSend_loading now (ui w) Hl). simpl.
      right. split; [exact Hl|eauto].
  - left. simpl. split; [apply handleSend_settle_isLoading|].
    destruct Hinv as [[_ Hnil]|[_ [k' Hone]]].
    + rewrite Hnil in Hw. now destruct before.
    + rewrite Hone in Hw.
      destruct before as [|b [|b' before]]; simpl in Hw.
      * inversion Hw. reflexivity.
      * inversion Hw.
      * inversion Hw.
  - exact Hinv.
Qed.

Lemma reachable_one_query_at_most (w : World) :
  reachable w -> one_query_at_most w.
Proof.
  induction 1 as [|w w' _ IH Hstep].
  - left. split; reflexivity.
  - exact (one_query_at_most_step IH Hstep).
Qed.

(** C2. In every state the component reaches, at most one call of
    [handleSend] waits for its request, and one does exactly when the
    component is loading; and then a further send changes nothing: the
    messages, the input and the requests issued stay as they are, and no
    call is added to the waiting ones. *)
Theorem send_while_sending_is_noop (w : World) (now : jsstring) :
  reachable w ->
  (List.length (waiting w) <= 1)%nat
  /\ (isLoading (ui w) = true <-> waiting w <> [])
  /\ (isLoading (ui w) = true ->
      handleSend now (ui w) = (ui w, None)
      /\ send now w = w
      /\ requests (ui (send now w)) = requests (ui w)
      /\ messages (ui (send now w)) = messages (ui w)
      /\ input (ui (send now w)) = input (ui w)
      /\ waiting (send now w) = waiting w).
Proof.
  intros Hr. pose proof (reachable_one_query_at_most Hr) as Hinv.
  split; [|split].
  - destruct Hinv as [[_ ->]|[_ [k ->]]]; simpl; lia.
  - destruct Hinv as [[Hl ->]|[Hl [k ->]]]; rewrite Hl; split;
      try discriminate; try reflexivity; intros H; now elim H.
  - intros Hl. pose proof (handleSend_loading now (ui w) Hl) as Hs.
    assert (Hw : send now w = w).
    { unfold send. rewrite Hs. now destruct w. }
    rewrite Hw. repeat split; auto.
Qed.

Lemma sending_reachable : reachable sending.
Proof.
  unfold sending.
  eapply reachable_step;
    [eapply reachable_step; [apply reachable_start|apply step_change]
    |apply step_send].
Defined.

Lemma send_while_sending_is_noop_witness :
  reachable sending
  /\ isLoading (ui sending) = true
  /\ requests (ui sending) = [query_request (lit "hi")]
  /\ send (lit "10:00") sending = sending
  /\ (List.length (waiting (send (lit "10:00") sending)) <= 1)%nat.
Proof.
  split; [exact sending_reachable|].
  split; [reflexivity|]. split; [reflexivity|].
  destruct (send_while_sending_is_noop (lit "10:00") sending_reachable)
    as [Hlen [_ Hnoop]].
  destruct (Hnoop eq_refl) as [_ [Hsend _]].
  split; [exact Hsend|]. rewrite Hsend. exact Hlen.
Defined.

(** Two sends before the first settles issue one request. *)
Example send_twice_one_request :
  let w := send (lit "10:00") (send (lit "10:00")
             {| ui := typed (lit "hi"); waiting := [] |}) in
  requests (ui w) = [query_request (lit "hi")]
  /\ messages (ui w) = asked
  /\ waiting w = [asked].
Proof. cbv zeta. repeat split. Qed.

(** C3. A send while the component is not loading and the trimmed input is
    not empty appends at once one user message with the trimmed input,
    empties the input, starts the loading and issues the request; and
    however the request settles, the messages are then the messages at the
    send followed by the user message and by one assistant message. *)
Theorem send_appends_user_then_assistant (st : State) (now : jsstring) :
  isLoading st = false -> trim (input st) <> [] ->
  let userMessage :=
    {| role := user; content := trim (input st); sources := None;
       metadata := None; timestamp := now |} in
  handleSend now st
  = ({| messages := messages st ++ [userMessage];
        input := [];
        isLoading := true;
        logs := logs st;
        toasts := toasts st;
        requests := requests st ++ [query_request (trim (input st))] |},
     Some (messages st ++ [userMessage]))
  /\ List.length (messages (fst (handleSend now st)))
     = (List.length (messages st) + 1)%nat
  /\ forall (o : FetchOutcome) (now' : jsstring) (st' : State),
      exists m : ChatMessage,
        role m = assistant
        /\ messages (handleSend_settle (messages st ++ [userMessage])
                       o now' st')
           = messages st ++ [userMessage; m]
        /\ List.length (messages (handleSend_settle
                                    (messages st ++ [userMessage])
                                    o now' st'))
           = (List.length (messages st) + 2)%nat.
Proof.
  intros Hl Hq userMessage.
  assert (Hs : handleSend now st
               = ({| messages := messages st ++ [userMessage];
                     input := [];
                     isLoading := true;
                     logs := logs st;
                     toasts := toasts st;
                     requests :=
                       requests st ++ [query_request (trim (input st))] |},
                  Some (messages st ++ [userMessage]))).
  { unfold handleSend. rewrite Hl.
    subst userMessage.
    destruct (trim (input st)) eqn:Ht; [now elim Hq|reflexivity]. }
  split; [exact Hs|]. split.
  - rewrite Hs. simpl. now rewrite length_app.
  - intros o now' st'.
    destruct (handleSend_settle_appends (messages st ++ [userMessage])
                o now' st') as [m [Hr Hm]].
    exists m. split; [exact Hr|]. rewrite Hm. split.
    + now rewrite <- app_assoc.
    + rewrite !length_app. simpl. lia.
Qed.

Lemma send_appends_user_then_assistant_witness :
  isLoading (typed (lit "  hi ")) = false
  /\ trim (input (typed (lit "  hi "))) <> []
  /\ fst (handleSend (lit "10:00") (typed (lit "  hi ")))
     = {| messages := asked; input := []; isLoading := true; logs := [];
          toasts := []; requests := [query_request (lit "hi")] |}
  /\ List.length
       (messages (handleSend_settle asked (Resolved not_found) (lit "10:01")
                    (handleClearChat (ui sending))))
     = 2%nat.
Proof.
  split; [reflexivity|]. split; [discriminate|].
  destruct (@send_appends_user_then_assistant (typed (lit "  hi "))
              (lit "10:00") eq_refl) as [Hs [_ Hsettle]].
  - discriminate.
  - split.
    + rewrite Hs. reflexivity.
    + destruct (Hsettle (Resolved not_found) (lit "10:01")
                  (handleClearChat (ui sending))) as [m [_ [_ Hlen]]].
      exact Hlen.
Defined.

End Session.

(* ================================================================== *)
(** * The question that is sent *)
(* ================================================================== *)

Section Question.

Import ChatInterface.

Lemma trimStart_split (s : jsstring) :
  exists pre : jsstring,
    s = pre ++ trimStart s /\ blank pre = true.
Proof.
  induction s as [|c r [pre [Hs Hb]]].
  - exists []. split; reflexivity.
  - simpl. destruct (isTrimmed c) eqn:E.
    + exists (c :: pre). split.
      * simpl. now rewrite <- Hs.
      * simpl. now rewrite E, Hb.
    + exists []. split; reflexivity.
Qed.

Lemma trimStart_head (s : jsstring) (c : N) (r : jsstring) :
  trimStart s = c :: r -> isTrimmed c = false.
Proof.
  induction s as [|d t IH]; simpl; [discriminate|].
  destruct (isTrimmed d) eqn:E; [exact IH|].
  intros H. inversion H; subst. exact E.
Qed.

Lemma trimStart_blank (s : jsstring) : blank s = true -> trimStart s = [].
Proof.
  induction s as [|c r IH]; simpl; [reflexivity|].
  intros H. apply andb_true_iff in H. destruct H as [Hc Hr].
  rewrite Hc. now apply IH.
Qed.

Lemma trimStart_fixed (c : N) (r : jsstring) :
  isTrimmed c = false -> trimStart (c :: r) = c :: r.
Proof. intros H. simpl. now rewrite H. Qed.

Lemma blank_app (a b : jsstring) :
  blank (a ++ b) = blank a && blank b.
Proof. apply forallb_app. Qed.

Lemma blank_rev (a : jsstring) : blank (rev a) = blank a.
Proof.
  induction a as [|c r IH]; [reflexivity|].
  simpl. rewrite blank_app, IH. simpl. rewrite andb_true_r.
  apply andb_comm.
Qed.

Lemma trimEnd_split (s : jsstring) :
  exists post : jsstring,
    s = trimEnd s ++ post /\ blank post = true.
Proof.
  unfold trimEnd. destruct (trimStart_split (rev s)) as [pre [Hs Hb]].
  exists (rev pre). split.
  - rewrite <- rev_app_distr, <- Hs. now rewrite rev_involutive.
  - now rewrite blank_rev.
Qed.

Lemma trimEnd_last (s r : jsstring) (c : N) :
  trimEnd s = r ++ [c] -> isTrimmed c = false.
Proof.
  unfold trimEnd. intros H.
  apply (f_equal (@rev N)) in H.
  rewrite rev_involutive, rev_app_distr in H. simpl in H.
  exact (@trimStart_head _ _ _ H).
Qed.

Lemma trimEnd_fixed (r : jsstring) (c : N) :
  isTrimmed c = false -> trimEnd (r ++ [c]) = r ++ [c].
Proof.
  intros H. unfold trimEnd. rewrite rev_app_distr. simpl.
  rewrite H. simpl. now rewrite rev_involutive.
Qed.

(** The head of a text without leading blanks survives [trimEnd]. *)
Lemma trimEnd_head (c : N) (r : jsstring) :
  isTrimmed c = false -> exists r', trimEnd (c :: r) = c :: r'.
Proof.
  intros Hc. destruct (trimEnd_split (c :: r)) as [post [Hs Hb]].
  destruct (trimEnd (c :: r)) as [|d r'] eqn:E.
  - simpl in Hs. subst post. simpl in Hb. now rewrite Hc in Hb.
  - simpl in Hs. inversion Hs; subst. eauto.
Qed.

(** [trim] cuts a text into blanks, the result, and blanks again, and
    the result, when it is not empty, starts and ends with a code unit that
    is not a blank. *)
Lemma trim_decomposition (s : jsstring) :
  (exists pre post : jsstring,
     s = pre ++ trim s ++ post /\ blank pre = true /\ blank post = true)
  /\ (trim s = []
      \/ (exists c r, trim s = c :: r /\ isTrimmed c = false)
         /\ (exists r c, trim s = r ++ [c] /\ isTrimmed c = false)).
Proof.
  unfold trim. destruct (trimStart_split s) as [pre [Hs Hpre]].
  destruct (trimEnd_split (trimStart s)) as [post [Ht Hpost]].
  split.
  - exists pre, post. split; [|now split].
    now rewrite <- Ht.
  - destruct (trimStart s) as [|c r] eqn:E; [now left|].
    right. pose proof (@trimStart_head s c r E) as Hc.
    destruct (@trimEnd_head c r Hc) as [r' Hr']. split.
    + exists c, r'. now split.
    + destruct (exists_last (l := trimEnd (c :: r))) as [r'' [d Hd]].
      { rewrite Hr'. discriminate. }
      exists r'', d. split; [exact Hd|]. exact (@trimEnd_last _ _ _ Hd).
Qed.

Lemma trim_blank_iff (s : jsstring) : trim s = [] <-> blank s = true.
Proof.
  split.
  - intros H. destruct (trim_decomposition s) as [[pre [post [Hs [Hp Hq]]]] _].
    rewrite H in Hs. simpl in Hs. rewrite Hs, blank_app, Hp, Hq. reflexivity.
  - intros H. unfold trim. now rewrite (@trimStart_blank s H).
Qed.

Lemma trim_idempotent (s : jsstring) : trim (trim s) = trim s.
Proof.
  destruct (trim_decomposition s) as [_ [H|[[c [r [Hh Hc]]] [r' [d [Hl Hd]]]]]].
  - rewrite H. reflexivity.
  - unfold trim at 1. rewrite Hh, (@trimStart_fixed c r Hc), <- Hh, Hl.
    now apply trimEnd_fixed.
Qed.

Lemma ToBoolean_string (s : jsstring) :
  ToBoolean (Some (JString s)) = false <-> s = [].
Proof. destruct s; simpl; split; intros H; try reflexivity; discriminate. Qed.

(** X2. [handleSend] issues no request exactly when the component is loading
    or the input holds blanks only (the empty input included), and then it
    leaves the whole state as it is. *)
Theorem handleSend_rejects (now : jsstring) (st : State) :
  (snd (handleSend now st) = None
   <-> isLoading st = true \/ blank (input st) = true)
  /\ (snd (handleSend now st) = None -> fst (handleSend now st) = st).
Proof.
  unfold handleSend.
  destruct (ToBoolean (Some (JString (trim (input st))))) eqn:Eb;
    destruct (isLoading st) eqn:El; simpl.
  - split; [split; [intros _; now left|reflexivity]|reflexivity].
  - split; [split|discriminate]; [discriminate|].
    intros [H|H]; [discriminate|].
    apply trim_blank_iff in H. rewrite H in Eb. discriminate.
  - split; [split; [intros _; now left|reflexivity]|reflexivity].
  - split; [split; [intros _|reflexivity]|reflexivity].
    right. apply trim_blank_iff. now apply ToBoolean_string.
Qed.


End Question.

(* ================================================================== *)
(** * What the settlement changes *)
(* ================================================================== *)

Section Settlement.

Import ChatInterface.

Ltac settle_cases o :=
  unfold handleSend_settle, try_catch_finally, handleSend_try, bind, eval;
  destruct (query o) as [[| | | | |props]|error]; simpl;
  try (destruct (ownProperty (lit "logs") props) as [[]|]; simpl).

(** The settlement leaves the input and the issued requests as they are. *)
Lemma handleSend_settle_frame (k : list ChatMessage) (o : FetchOutcome)
  (now : jsstring) (st : State) :
  input (handleSend_settle k o now st) = input st
  /\ requests (handleSend_settle k o now st) = requests st.
Proof. settle_cases o; split; reflexivity. Qed.

(** X4. After a query that succeeded, the content of the appended message is
    [answer] itself when it is a string, the empty string included, and the
    text that no answer was received when it is absent or any other
    value. *)
Theorem answer_normalized (k : list ChatMessage) (o : FetchOutcome)
  (now : jsstring) (st : State) (response : JsValue) :
  query o = Normal response -> response <> JNull ->
  exists m : ChatMessage,
    messages (handleSend_settle k o now st) = k ++ [m]
    /\ role m = assistant
    /\ timestamp m = now
    /\ content m = match field response (lit "answer") with
                   | Some (JString s) => s
                   | _ => [9888; 65039] ++ lit " No answer received."
                   end.
Proof.
  intros Hq Hnn.
  destruct (@handleSend_try_success k now o response st Hq Hnn)
    as [m [Hm [Hr [Ht [Hc _]]]]].
  exists m. repeat split; try assumption.
  erewrite handleSend_settle_success; [reflexivity | exact Hm].
Qed.

Lemma answer_normalized_witness :
  query (response_with body_metadata_null) = Normal body_metadata_null
  /\ body_metadata_null <> JNull
  /\ exists m : ChatMessage,
      messages (handleSend_settle asked (response_with body_metadata_null)
                  (lit "10:01") (ui sending))
      = asked ++ [m]
      /\ role m = assistant
      /\ timestamp m = lit "10:01"
      /\ content m = lit "ok".
Proof.
  split; [reflexivity|]. split; [discriminate|].
  apply (@answer_normalized asked (response_with body_metadata_null)
           (lit "10:01") (ui sending) body_metadata_null).
  - reflexivity.
  - discriminate.
Defined.

(** X6. Whatever the outcome, the settlement ends the loading and leaves the
    input and the issued requests as they are; it raises no toast when the
    query succeeded, and exactly one, titled [Error], when it failed. *)
Theorem handleSend_settle_effects (k : list ChatMessage) (o : FetchOutcome)
  (now : jsstring) (st : State) :
  let st' := handleSend_settle k o now st in
  isLoading st' = false
  /\ input st' = input st
  /\ requests st' = requests st
  /\ ((fst (handleSend_try k o now st) = Normal tt
       /\ toasts st' = toasts st)
      \/ (exists (error : Thrown) (t : Toast),
            fst (handleSend_try k o now st) = Throw error
            /\ toasts st' = toasts st ++ [t]
            /\ title t = lit "Error"
            /\ variant t = Some (lit "destructive"))).
Proof.
  cbv zeta. repeat split; try (settle_cases o; reflexivity).
  settle_cases o;
    try (left; split; reflexivity);
    right; eexists; eexists; repeat split.
Qed.

(** X7. The settlement sets the messages from the messages its call holds:
    the messages after it do not depend on the state it finds, so that a
    session cleared while the query was in flight has its messages back. *)
Theorem handleSend_settle_overwrites (k : list ChatMessage)
  (o : FetchOutcome) (now : jsstring) (st st' : State) :
  messages (handleSend_settle k o now st)
  = messages (handleSend_settle k o now st')
  /\ messages (handleSend_settle k o now (handleClearChat st))
     = messages (handleSend_settle k o now st)
  /\ messages (handleSend_settle k o now (handleClearChat st)) <> [].
Proof.
  assert (H : forall a b, messages (handleSend_settle k o now a)
                          = messages (handleSend_settle k o now b)).
  { intros a b. settle_cases o; reflexivity. }
  split; [apply H|]. split; [apply H|].
  destruct (handleSend_settle_appends k o now (handleClearChat st))
    as [m [_ ->]].
  now destruct k.
Qed.

End Settlement.

(* ================================================================== *)
(** * What every reachable session keeps *)
(* ================================================================== *)

Section Invariants.

Import ChatInterface.

Lemma other_involutive (r : Role) : other (other r) = r.
Proof. now destruct r. Qed.

Lemma alternates_app (l : list ChatMessage) (m : ChatMessage)
  (expected : Role) :
  alternates expected (l ++ [m])
  = alternates expected l
    && Role_eqb (role m)
         (if Nat.even (List.length l) then expected else other expected).
Proof.
  revert expected. induction l as [|x r IH]; intros expected.
  - simpl. now rewrite andb_true_r.
  - cbn [app alternates List.length]. rewrite IH, <- andb_assoc.
    f_equal. f_equal. rewrite other_involutive.
    rewrite Nat.even_succ, <- Nat.negb_even.
    now destruct (Nat.even (List.length r)).
Qed.

Lemma length_snoc_parity (l : list ChatMessage) (m : ChatMessage) :
  Nat.even (List.length (l ++ [m])) = Nat.odd (List.length l)
  /\ Nat.odd (List.length (l ++ [m])) = Nat.even (List.length l).
Proof.
  rewrite length_app. simpl. rewrite Nat.add_1_r.
  split; [apply Nat.even_succ | apply Nat.odd_succ].
Qed.

(** What an accepted send does to the state. *)
Lemma handleSend_accepts (now : jsstring) (st : State)
  (k : list ChatMessage) :
  snd (handleSend now st) = Some k ->
  isLoading st = false
  /\ trim (input st) <> []
  /\ (exists m, role m = user /\ content m = trim (input st)
                /\ k = messages st ++ [m])
  /\ messages (fst (handleSend now st)) = k
  /\ isLoading (fst (handleSend now st)) = true
  /\ requests (fst (handleSend now st))
     = requests st ++ [query_request (trim (input st))].
Proof.
  unfold handleSend.
  destruct (trim (input st)) as [|c r] eqn:Et; simpl; [discriminate|].
  destruct (isLoading st); simpl; [discriminate|].
  intros H. inversion H; subst. repeat split; try discriminate.
  eexists. repeat split; reflexivity.
Qed.

Lemma session_shape_step (w w' : World) :
  session_shape w -> step w w' -> session_shape w'.
Proof.
  intros [Halt [Heven Hwait]] Hstep. unfold session_shape.
  destruct Hstep as [text w|now w|w before after k o now Hw|w].
  - repeat split; simpl; auto; now apply Hwait.
  - unfold send. destruct (handleSend now (ui w)) as [st k] eqn:Es.
    destruct k as [k|]; simpl.
    + assert (Hk : snd (handleSend now (ui w)) = Some k) by now rewrite Es.
      destruct (handleSend_accepts now (ui w) Hk)
        as [Hl [_ [[m [Hr [_ Hkm]]] [Hm [Hl' _]]]]].
      rewrite Es in Hm, Hl'. simpl in Hm, Hl'.
      assert (Hshape : alternates user k = true
                       /\ Nat.odd (List.length k) = true).
      { subst k. rewrite alternates_app, Halt, (Heven Hl), Hr.
        destruct (length_snoc_parity (messages (ui w)) m) as [_ ->].
        now rewrite (Heven Hl). }
      repeat split.
      * rewrite Hm. apply Hshape.
      * rewrite Hl'. discriminate.
      * apply in_app_or in H. destruct H as [H|[<-|[]]];
          [now apply Hwait | apply Hshape].
      * apply in_app_or in H. destruct H as [H|[<-|[]]];
          [now apply Hwait | apply Hshape].
    + assert (Hn : snd (handleSend now (ui w)) = None) by now rewrite Es.
      unfold handleSend in Es.
      destruct (negb (ToBoolean (Some (JString (trim (input (ui w))))))
                || isLoading (ui w)); [|discriminate].
      inversion Es; subst. repeat split; auto; now apply Hwait.
  - assert (Hin : In k (waiting w)).
    { rewrite Hw. apply in_or_app. right. now left. }
    destruct (Hwait k Hin) as [Hka Hko].
    destruct (handleSend_settle_appends k o now (ui w)) as [m [Hr Hm]].
    destruct (length_snoc_parity k m) as [He _].
    simpl. repeat split.
    + rewrite Hm, alternates_app, Hka, Hr.
      rewrite <- Nat.negb_odd, Hko. reflexivity.
    + intros _. rewrite Hm, He. exact Hko.
    + apply Hwait. rewrite Hw. apply in_app_or in H.
      apply in_or_app. destruct H; [now left|right; now right].
    + apply Hwait. rewrite Hw. apply in_app_or in H.
      apply in_or_app. destruct H; [now left|right; now right].
  - repeat split; simpl; auto; now apply Hwait.
Qed.

(** X8. In every state the component reaches, the roles of the messages
    alternate, the first message being a user message; when no query is in
    flight the messages are a whole number of exchanges; and the messages
    that a waiting call holds alternate and end with a user message. *)
Theorem reachable_session_shape (w : World) :
  reachable w ->
  alternates user (messages (ui w)) = true
  /\ (isLoading (ui w) = false ->
      Nat.even (List.length (messages (ui w))) = true)
  /\ (forall k, In k (waiting w) ->
        alternates user k = true /\ Nat.odd (List.length k) = true).
Proof.
  induction 1 as [|w w' _ IH Hstep].
  - repeat split; simpl; auto; contradiction.
  - exact (session_shape_step IH Hstep).
Qed.

Lemma reachable_session_shape_witness :
  reachable sending
  /\ alternates user (messages (ui sending)) = true
  /\ (forall k, In k (waiting sending) ->
        alternates user k = true /\ Nat.odd (List.length k) = true).
Proof.
  split; [exact sending_reachable|].
  destruct (@reachable_session_shape sending sending_reachable)
    as [Ha [_ Hk]].
  split; [exact Ha | exact Hk].
Defined.

Lemma well_formed_step (w w' : World) :
  Forall well_formed_query (requests (ui w)) -> step w w' ->
  Forall well_formed_query (requests (ui w')).
Proof.
  intros Hall Hstep.
  destruct Hstep as [text w|now w|w before after k o now Hw|w].
  - exact Hall.
  - unfold send. destruct (handleSend now (ui w)) as [st k] eqn:Es.
    destruct k as [k|]; simpl.
    + assert (Hk : snd (handleSend now (ui w)) = Some k) by now rewrite Es.
      destruct (handleSend_accepts now (ui w) Hk)
        as [_ [Hne [_ [_ [_ Hreq]]]]].
      rewrite Es in Hreq. simpl in Hreq. rewrite Hreq.
      apply Forall_app. split; [exact Hall|].
      constructor; [|constructor].
      exists (trim (input (ui w))). split; [reflexivity|].
      split; [exact Hne | apply trim_idempotent].
    + unfold handleSend in Es.
      destruct (negb (ToBoolean (Some (JString (trim (input (ui w))))))
                || isLoading (ui w)); [|discriminate].
      now inversion Es; subst.
  - simpl. destruct (handleSend_settle_frame k o now (ui w)) as [_ ->].
    exact Hall.
  - exact Hall.
Qed.

(** X9. Every request the chat component ever issues is the query request of
    a question that is not empty and has no blank at either end: a POST to
    [/query] of the API base with a JSON body. *)
Theorem reachable_requests_well_formed (w : World) :
  reachable w ->
  Forall
    (fun r =>
       (exists question : jsstring,
          r = query_request question /\ question <> []
          /\ trim question = question)
       /\ url r = lit "http://127.0.0.1:8002/query"
       /\ method r = lit "POST"
       /\ headers r = [(lit "Content-Type", lit "application/json")])
    (requests (ui w)).
Proof.
  intros Hr.
  assert (H : Forall well_formed_query (requests (ui w))).
  { induction Hr as [|w w' _ IH Hstep]; [constructor|].
    exact (well_formed_step IH Hstep). }
  eapply Forall_impl; [|exact H].
  intros r [q [-> [Hne Ht]]]. split; [exists q; auto|].
  repeat split.
Qed.

Lemma reachable_requests_well_formed_witness :
  reachable sending
  /\ requests (ui sending) = [query_request (lit "hi")]
  /\ Forall (fun r => url r = lit "http://127.0.0.1:8002/query")
       (requests (ui sending)).
Proof.
  split; [exact sending_reachable|]. split; [reflexivity|].
  eapply Forall_impl;
    [|exact (@reachable_requests_well_formed sending sending_reachable)].
  intros r [_ [H _]]. exact H.
Defined.

End Invariants.

(* ================================================================== *)
(** * The facade, case by case *)
(* ================================================================== *)

Section FacadeCases.

Lemma method_succeeds (prefix : jsstring) (o : FetchOutcome) (v : JsValue) :
  andThen (await_fetch o)
    (fun response =>
       if negb (ok response)
       then throw_Error (prefix ++ statusText response)
       else await_json response)
  = Normal v
  <-> exists r, o = Resolved r /\ ok r = true /\ json r = Parsed v.
Proof.
  split.
  - destruct o as [msg|r]; simpl; [discriminate|].
    unfold await_json, throw_Error.
    destruct (ok r) eqn:Hok; simpl; [|discriminate].
    destruct (json r) as [v'|e] eqn:Hj; [|discriminate].
    intros H. inversion H; subst. exists r. auto.
  - intros [r [-> [Hok Hj]]]. simpl. unfold await_json.
    now rewrite Hok, Hj.
Qed.

(** X10. A call of the facade gives a value exactly when [fetch] resolved to
    a response with a success status whose body decodes, and the value is
    then the decoded body; with a success status and a body that does not
    decode, the call fails with the error of the decoding. *)
Theorem facade_result (o : FetchOutcome) (v : JsValue) :
  let succeeded :=
    exists r, o = Resolved r /\ ok r = true /\ json r = Parsed v in
  (query o = Normal v <-> succeeded)
  /\ (uploadDocuments o = Normal v <-> succeeded)
  /\ (inspectStructure o = Normal v <-> succeeded)
  /\ (clearIndex o = Normal v <-> succeeded)
  /\ (forall r e, o = Resolved r -> ok r = true -> json r = JsonRejected e ->
        query o = Throw (ThrownError e)
        /\ uploadDocuments o = Throw (ThrownError e)
        /\ inspectStructure o = Throw (ThrownError e)
        /\ clearIndex o = Throw (ThrownError e)).
Proof.
  cbv zeta. split; [apply method_succeeds|].
  split; [apply method_succeeds|].
  split; [apply method_succeeds|].
  split; [apply method_succeeds|].
  intros r e -> Hok Hj.
  unfold query, uploadDocuments, inspectStructure, clearIndex, await_json.
  simpl. rewrite Hok, Hj. repeat split.
Qed.

End FacadeCases.

(* ================================================================== *)
(** * The admin operations after their request *)
(* ================================================================== *)

Section AdminSettlement.

Import AdminPanel.

Ltac admin_cases c :=
  unfold handleFileUpload_settle, handleInspectStructure_settle,
    handleClearIndex_settle, try_catch_finally, bind, eval, toast, set,
    reset_file_input;
  destruct c as [[| | | | |props]|error]; simpl.

(** X11. Whatever the outcome of its request, each admin handler completes
    without throwing, clears its own busy flag, raises exactly one toast,
    issues no further request and leaves the busy flags of the two other
    operations as they are. *)
Theorem admin_settlement (files : list File) (o : FetchOutcome) (p : Panel) :
  let settled (run : Stmt unit) (busy : AdminSidebar.State -> bool)
        (other1 other2 : AdminSidebar.State -> bool) :=
    fst (run p) = Normal tt
    /\ busy (component (snd (run p))) = false
    /\ other1 (component (snd (run p))) = other1 (component p)
    /\ other2 (component (snd (run p))) = other2 (component p)
    /\ AdminSidebar.requests (component (snd (run p)))
       = AdminSidebar.requests (component p)
    /\ exists n, notices (snd (run p)) = notices p ++ [n] in
  settled (handleFileUpload_settle files o) AdminSidebar.uploading
    AdminSidebar.inspecting AdminSidebar.clearing
  /\ settled (handleInspectStructure_settle o) AdminSidebar.inspecting
       AdminSidebar.uploading AdminSidebar.clearing
  /\ settled (handleClearIndex_settle o) AdminSidebar.clearing
       AdminSidebar.uploading AdminSidebar.inspecting.
Proof.
  cbv zeta. split; [|split].
  - admin_cases (uploadDocuments o); repeat split; eexists; reflexivity.
  - admin_cases (inspectStructure o); repeat split; eexists; reflexivity.
  - admin_cases (clearIndex o); repeat split; eexists; reflexivity.
Qed.

(** X12. After a clear request, the name field is emptied when the facade
    gave a body that is not [null], with a toast whose description is the
    [message] property of the body; in every other case, that of a success
    status with the body [null] included, the name field is kept and the
    toast is the failure toast with the message of the error. *)
Theorem clear_settlement (o : FetchOutcome) (p : Panel) :
  let p' := snd (handleClearIndex_settle o p) in
  match clearIndex o with
  | Normal JNull =>
      AdminSidebar.clearIndexName (component p')
      = AdminSidebar.clearIndexName (component p)
      /\ exists text,
          notices p'
          = notices p
              ++ [{| notice_title := lit "Clear Failed";
                     notice_description := Some (JString text);
                     notice_variant := Some (lit "destructive") |}]
  | Normal result =>
      AdminSidebar.clearIndexName (component p') = []
      /\ notices p'
         = notices p
             ++ [{| notice_title := lit "Clear Successful";
                    notice_description := field result (lit "message");
                    notice_variant := None |}]
  | Throw error =>
      AdminSidebar.clearIndexName (component p')
      = AdminSidebar.clearIndexName (component p)
      /\ notices p'
         = notices p
             ++ [{| notice_title := lit "Clear Failed";
                    notice_description :=
                      Some (JString match error with
                                    | ThrownError e => message e
                                    | ThrownValue _ => lit "Unknown error"
                                    end);
                    notice_variant := Some (lit "destructive") |}]
  end.
Proof.
  cbv zeta. admin_cases (clearIndex o); split; try reflexivity.
  eexists. reflexivity.
Qed.


(** X14. After an upload request, the file input has lost its selection
    whatever the outcome; when the facade gave a body, whatever the body,
    the toast reports the number of files that were selected, and when it
    failed the toast carries the message of the error. *)
Theorem upload_settlement (files : list File) (o : FetchOutcome) (p : Panel) :
  let p' := snd (handleFileUpload_settle files o p) in
  file_input p' = []
  /\ match uploadDocuments o with
     | Normal _ =>
         notices p'
         = notices p
             ++ [{| notice_title := lit "Upload Successful";
                    notice_description :=
                      Some (JString
                              (lit "Uploaded " ++ decimal (List.length files)
                                 ++ lit " documents successfully"));
                    notice_variant := None |}]
     | Throw error =>
         notices p'
         = notices p
             ++ [{| notice_title := lit "Upload Failed";
                    notice_description :=
                      Some (JString match error with
                                    | ThrownError e => message e
                                    | ThrownValue _ => lit "Unknown error"
                                    end);
                    notice_variant := Some (lit "destructive") |}]
     end.
Proof.
  cbv zeta. admin_cases (uploadDocuments o); split; reflexivity.
Qed.

Example upload_three_files :
  let files := [{| file_name := lit "a.pdf" |}; {| file_name := lit "b.pdf" |};
                {| file_name := lit "c.txt" |}] in
  let p := handleFileUpload
             {| component := AdminSidebar.initial; notices := [];
                file_input := files |} in
  AdminSidebar.uploading (component p) = true
  /\ map notice_description
       (notices (snd (handleFileUpload_settle files (response_with JNull) p)))
     = [Some (JString (lit "Uploaded 3 documents successfully"))].
Proof. cbv zeta. split; reflexivity. Qed.

End AdminSettlement.

(* ================================================================== *)
(** * The lines of a text of sources, and the text of a request body *)
(* ================================================================== *)

Section Texts.

Import ChatInterface.

Lemma concat_split (s : jsstring) :
  List.concat (split 10 s) = filter not_line_feed s.
Proof.
  induction s as [|c r IH]; [reflexivity|].
  simpl. unfold not_line_feed at 1. destruct (N.eqb c 10); simpl.
  - exact IH.
  - rewrite <- IH. pose proof (split_not_nil 10 r) as Hne.
    destruct (split 10 r); [contradiction|reflexivity].
Qed.

Lemma concat_filter_nonempty (l : list jsstring) :
  List.concat (filter nonempty l) = List.concat l.
Proof.
  induction l as [|x r IH]; [reflexivity|].
  simpl. destruct x; simpl; [exact IH|]. now rewrite IH.
Qed.

Lemma nonempty_lines_facts (s : jsstring) :
  Forall (fun line => line <> [] /\ ~ In 10 line) (nonempty_lines s)
  /\ List.concat (nonempty_lines s) = filter not_line_feed s.
Proof.
  rewrite <- split_filter_lines. split.
  - apply Forall_forall. intros line Hin.
    apply filter_In in Hin. destruct Hin as [Hin Hne]. split.
    + intros ->. discriminate.
    + exact (@split_no_separator 10 s line Hin).
  - now rewrite concat_filter_nonempty, concat_split.
Qed.

(** X15. When the sources of a successful response are one text, the sources
    of the appended message are strings none of which is empty or holds a
    line feed, and put end to end they are the text without its line
    feeds: nothing but line feeds is lost, and the order is kept. *)
Theorem text_sources_lines (k : list ChatMessage) (o : FetchOutcome)
  (now : jsstring) (st : State) (response : JsValue) (s : jsstring) :
  query o = Normal response -> response <> JNull ->
  field response (lit "sources") = Some (JString s) ->
  exists (m : ChatMessage) (lines : list jsstring),
    messages (handleSend_settle k o now st) = k ++ [m]
    /\ sources m = Some (map JString lines)
    /\ Forall (fun line => line <> [] /\ ~ In 10 line) lines
    /\ List.concat lines = filter (fun c => negb (N.eqb c 10)) s.
Proof.
  intros Hq Hnn Hf.
  destruct (@handleSend_try_success k now o response st Hq Hnn)
    as [m [Hm [_ [_ [_ [Hs _]]]]]].
  rewrite Hf in Hs.
  exists m, (nonempty_lines s). split; [|split; [exact Hs|]].
  - erewrite handleSend_settle_success; [reflexivity | exact Hm].
  - apply nonempty_lines_facts.
Qed.

Lemma text_sources_lines_witness :
  query (response_with body_text_sources) = Normal body_text_sources
  /\ body_text_sources <> JNull
  /\ field body_text_sources (lit "sources")
     = Some (JString (lit "a" ++ [10] ++ lit "b" ++ [10]))
  /\ exists (m : ChatMessage) (lines : list jsstring),
      messages (handleSend_settle asked (response_with body_text_sources)
                  (lit "10:01") (ui sending))
      = asked ++ [m]
      /\ sources m = Some (map JString lines)
      /\ Forall (fun line => line <> [] /\ ~ In 10 line) lines
      /\ List.concat lines = lit "ab".
Proof.
  split; [reflexivity|]. split; [discriminate|]. split; [reflexivity|].
  apply (@text_sources_lines asked (response_with body_text_sources)
           (lit "10:01") (ui sending) body_text_sources
           (lit "a" ++ [10] ++ lit "b" ++ [10])).
  - reflexivity.
  - discriminate.
  - reflexivity.
Defined.

Lemma hexDigit_printable (d : N) : printable (hexDigit d).
Proof.
  unfold printable, hexDigit. destruct (N.ltb d 10); lia.
Qed.

Lemma UnicodeEscape_printable (c : N) : Forall printable (UnicodeEscape c).
Proof.
  unfold UnicodeEscape.
  repeat (constructor; [first [apply hexDigit_printable
                              | unfold printable; lia]|]).
  constructor.
Qed.

Lemma quoteUnit_printable (c : N) : Forall printable (quoteUnit c).
Proof.
  unfold quoteUnit.
  repeat match goal with
         | |- context [if ?b then _ else _] => destruct b eqn:?
         end;
    try apply UnicodeEscape_printable;
    repeat (constructor; [unfold printable; try lia|]);
    try constructor.
  match goal with
  | H : N.ltb c 32 = false |- _ => apply N.ltb_ge in H; exact H
  end.
Qed.

Lemma quoteUnits_printable_upto (n : nat) (s : jsstring) :
  (List.length s <= n)%nat -> Forall printable (quoteUnits s).
Proof.
  revert s. induction n as [|n IH]; intros s Hlen.
  - destruct s; [constructor|simpl in Hlen; lia].
  - destruct s as [|c r]; [constructor|].
    simpl in Hlen. cbn [quoteUnits].
    destruct (isLeadingSurrogate c) eqn:Hlead.
    + unfold isLeadingSurrogate in Hlead.
      apply andb_true_iff in Hlead. destruct Hlead as [Hlo _].
      apply N.leb_le in Hlo.
      destruct r as [|d r'].
      * apply UnicodeEscape_printable.
      * destruct (isTrailingSurrogate d) eqn:Htrail.
        -- unfold isTrailingSurrogate in Htrail.
           apply andb_true_iff in Htrail. destruct Htrail as [Hd _].
           apply N.leb_le in Hd.
           constructor; [unfold printable; lia|].
           constructor; [unfold printable; lia|].
           apply IH. simpl in Hlen. lia.
        -- apply Forall_app. split; [apply UnicodeEscape_printable|].
           apply IH. lia.
    + destruct (isTrailingSurrogate c).
      * apply Forall_app. split; [apply UnicodeEscape_printable|].
        apply IH. lia.
      * apply Forall_app. split; [apply quoteUnit_printable|].
        apply IH. lia.
Qed.

Lemma QuoteJSONString_printable (s : jsstring) :
  Forall printable (QuoteJSONString s).
Proof.
  unfold QuoteJSONString. apply Forall_app. split.
  - constructor; [unfold printable; lia|constructor].
  - apply Forall_app. split.
    + exact (@quoteUnits_printable_upto (List.length s) s (le_n _)).
    + constructor; [unfold printable; lia|constructor].
Qed.

Lemma literal_printable (l : jsstring) :
  forallb (N.leb 32) l = true -> Forall printable l.
Proof.
  intros H. apply Forall_forall. intros c Hc.
  rewrite forallb_forall in H. apply N.leb_le. now apply H.
Qed.

Lemma object_body_printable (key inner : jsstring) :
  Forall printable inner ->
  Forall printable
    (lit "{" ++ (QuoteJSONString key ++ lit ":" ++ [] ++ inner) ++ lit "}").
Proof.
  intros H.
  apply Forall_app. split; [apply literal_printable; reflexivity|].
  apply Forall_app. split; [|apply literal_printable; reflexivity].
  apply Forall_app. split; [apply QuoteJSONString_printable|].
  apply Forall_app. split; [apply literal_printable; reflexivity|].
  exact H.
Qed.

(** X16. Whatever the question and whatever the index name, the body of a
    query request and of a clear request is a text without any code unit
    below the space: control characters and line breaks of the question or
    of the name are sent escaped. *)
Theorem request_bodies_printable (question : jsstring)
  (indexName : option jsstring) :
  (exists text, body (query_request question) = Some (TextBody text)
                /\ Forall (fun c => 32 <= c) text)
  /\ (exists text, body (clearIndex_request indexName) = Some (TextBody text)
                   /\ Forall (fun c => 32 <= c) text).
Proof.
  split.
  - eexists. split; [reflexivity|].
    unfold JSON_stringify. cbn [SerializeJSONProperty map fst snd join].
    apply object_body_printable. apply QuoteJSONString_printable.
  - eexists. split; [reflexivity|].
    unfold JSON_stringify. cbn [SerializeJSONProperty map fst snd join].
    apply object_body_printable.
    unfold indexName_or_null.
    destruct indexName as [[|c r]|];
      try (apply literal_printable; reflexivity).
    apply (QuoteJSONString_printable (c :: r)).
Qed.

(** X17. The rest of [handleSend] never throws: whatever the outcome of the
    request, the failure is handled in the [catch] block. *)
Theorem handleSend_never_throws (k : list ChatMessage) (o : FetchOutcome)
  (now : jsstring) (st : State) :
  fst (try_catch_finally
         (handleSend_try k o now)
         (fun error => handleSend_catch k error now)
         handleSend_finally st)
  = Normal tt.
Proof.
  unfold try_catch_finally, handleSend_try, bind, eval.
  destruct (query o) as [[| | | | |props]|error]; simpl; try reflexivity.
  destruct (ownProperty (lit "logs") props) as [[]|]; reflexivity.
Qed.

End Texts.

(* ================================================================== *)
(** * Further properties of the handlers *)
(* ================================================================== *)

Section Handlers.

Import ChatInterface.

(** X1. When [handleSend] issues a request, the question it sends, which is
    also the content of the user message it appends, is the input without
    the blanks before its first and after its last code unit that is not a
    blank; blanks inside the question are kept. *)
Theorem sent_question_trimmed (now : jsstring) (st : State)
  (k : list ChatMessage) :
  snd (handleSend now st) = Some k ->
  exists (pre question post : jsstring) (m : ChatMessage),
    input st = pre ++ question ++ post
    /\ blank pre = true /\ blank post = true
    /\ (exists c r, question = c :: r /\ isTrimmed c = false)
    /\ (exists r c, question = r ++ [c] /\ isTrimmed c = false)
    /\ k = messages st ++ [m]
    /\ role m = user /\ content m = question /\ timestamp m = now
    /\ requests (fst (handleSend now st))
       = requests st ++ [query_request question].
Proof.
  intros Hk.
  destruct (@handleSend_accepts now st k Hk)
    as [_ [Hne [_ [_ [_ Hreq]]]]].
  destruct (trim_decomposition (input st))
    as [[pre [post [Hs [Hp Hq]]]] [Hnil|[Hhead Hlast]]];
    [contradiction|].
  exists pre, (trim (input st)), post.
  unfold handleSend in Hk.
  destruct (negb (ToBoolean (Some (JString (trim (input st)))))
            || isLoading st); [discriminate|].
  simpl in Hk. inversion Hk; subst k.
  eexists. repeat split; try eassumption; reflexivity.
Qed.

Lemma sent_question_trimmed_witness :
  snd (handleSend (lit "10:00") (typed (lit "  hi there ")))
  = Some [{| role := user; content := lit "hi there"; sources := None;
             metadata := None; timestamp := lit "10:00" |}]
  /\ exists (pre question post : jsstring) (m : ChatMessage),
      input (typed (lit "  hi there ")) = pre ++ question ++ post
      /\ blank pre = true /\ blank post = true
      /\ (exists c r, question = c :: r /\ isTrimmed c = false)
      /\ (exists r c, question = r ++ [c] /\ isTrimmed c = false)
      /\ [{| role := user; content := lit "hi there"; sources := None;
             metadata := None; timestamp := lit "10:00" |}]
         = messages (typed (lit "  hi there ")) ++ [m]
      /\ role m = user /\ content m = question
      /\ timestamp m = lit "10:00"
      /\ requests (fst (handleSend (lit "10:00") (typed (lit "  hi there "))))
         = requests (typed (lit "  hi there ")) ++ [query_request question].
Proof.
  split; [reflexivity|].
  apply (@sent_question_trimmed (lit "10:00") (typed (lit "  hi there "))).
  reflexivity.
Defined.

(** X5. The settlement replaces the log batch by the [logs] of the body when
    the query succeeded and [logs] is an array, the empty array included;
    when the query failed, and when [logs] is absent or is any other value,
    the log batch is kept as it was. *)
Theorem logs_replaced_or_kept (k : list ChatMessage) (o : FetchOutcome)
  (now : jsstring) (st : State) :
  (forall response elems,
      query o = Normal response ->
      field response (lit "logs") = Some (JArray elems) ->
      logs (handleSend_settle k o now st) = elems)
  /\ (forall response,
        query o = Normal response ->
        (forall elems, field response (lit "logs") <> Some (JArray elems)) ->
        logs (handleSend_settle k o now st) = logs st)
  /\ (forall error,
        query o = Throw error ->
        logs (handleSend_settle k o now st) = logs st).
Proof.
  pose proof (handleSend_settle_logs k o now st) as H.
  split; [|split].
  - intros response elems Hq Hf. now rewrite H, Hq, Hf.
  - intros response Hq Hf. rewrite H, Hq.
    destruct (field response (lit "logs")) as [[| | | |elems|]|];
      try reflexivity.
    now elim (Hf elems).
  - intros error Hq. now rewrite H, Hq.
Qed.

(** X18. The admin handlers do not test their busy flag: whatever the flags,
    a clear and an inspect set their flag and issue one request, and so
    does an upload with a selection that is not empty. Only the disabled
    controls of the view keep an operation from running twice at once. *)
Theorem admin_handlers_unguarded (st : AdminSidebar.State) (file : File)
  (files : list File) :
  (AdminSidebar.clearing (AdminSidebar.handleClearIndex st) = true
   /\ List.length (AdminSidebar.requests (AdminSidebar.handleClearIndex st))
      = S (List.length (AdminSidebar.requests st)))
  /\ (AdminSidebar.inspecting (AdminSidebar.handleInspectStructure st) = true
      /\ AdminSidebar.requests (AdminSidebar.handleInspectStructure st)
         = AdminSidebar.requests st ++ [inspectStructure_request])
  /\ (AdminSidebar.uploading
        (AdminSidebar.handleFileUpload (Some (file :: files)) st) = true
      /\ AdminSidebar.requests
           (AdminSidebar.handleFileUpload (Some (file :: files)) st)
         = AdminSidebar.requests st
             ++ [uploadDocuments_request (file :: files)]).
Proof.
  repeat split.
  unfold AdminSidebar.handleClearIndex, AdminSidebar.fetch. simpl.
  rewrite length_app. simpl. lia.
Qed.

End Handlers.
